(** * Shallow embedding of the Multimodal Creative Studio API (rhythm)

    Sources: src/app.py, src/generators/poem_generator.py,
    src/generators/animation_generator.py, src/models/database.py.
    Python strings are modelled as ASCII strings ([String.string]); a
    Python [int]/[float] time as a [Z] number of milliseconds. *)

From Stdlib Require Import String Ascii List ZArith QArith Qround Qminmax Bool Lia.
Import ListNotations.
Set Warnings "-register-all".
Open Scope nat_scope.
Open Scope string_scope.

(* ------------------------------------------------------------------ *)
(** ** Python string helpers *)

Module Py.

(** [str.isspace] restricted to ASCII: \t \n \x0b \x0c \r \x1c-\x1f and space. *)
Definition is_space (c : ascii) : bool :=
  let n := nat_of_ascii c in
  (Nat.leb 9 n && Nat.leb n 13) || (Nat.leb 28 n && Nat.leb n 32).

Fixpoint lstrip (s : string) : string :=
  match s with
  | EmptyString => EmptyString
  | String c r => if is_space c then lstrip r else s
  end.

Definition rev_string (s : string) : string :=
  string_of_list_ascii (rev (list_ascii_of_string s)).

(** [str.strip()] *)
Definition strip (s : string) : string :=
  rev_string (lstrip (rev_string (lstrip s))).

Definition upper (c : ascii) : ascii :=
  let n := nat_of_ascii c in
  if Nat.leb 97 n && Nat.leb n 122 then ascii_of_nat (n - 32)%nat else c.

Definition lower (c : ascii) : ascii :=
  let n := nat_of_ascii c in
  if Nat.leb 65 n && Nat.leb n 90 then ascii_of_nat (n + 32)%nat else c.

Fixpoint lower_all (s : string) : string :=
  match s with
  | EmptyString => EmptyString
  | String c r => String (lower c) (lower_all r)
  end.

(** [str.capitalize()]: first character upper case, the rest lower case. *)
Definition capitalize (s : string) : string :=
  match s with
  | EmptyString => EmptyString
  | String c r => String (upper c) (lower_all r)
  end.

(** ['\n'.join(lines)] *)
Definition newline : string := String (ascii_of_nat 10) EmptyString.

Fixpoint join (sep : string) (l : list string) : string :=
  match l with
  | [] => EmptyString
  | [x] => x
  | x :: r => x ++ sep ++ join sep r
  end.

End Py.

(* ------------------------------------------------------------------ *)
(** ** src/generators/poem_generator.py *)

Module PoemGenerator.

Definition line1 := "Beneath the lights that paint the night,".
Definition line2 := "Rhythms pulse and colors bright.".
Definition line3 := "Hands clapping, hearts in flight,".
Definition line4 := "We dance till dawn and own the night.".
(** The attribution prefix exactly as the source bytes have it. *)
Definition attribution_prefix := "â€” Inspired by: ".

(** [PoemGenerator.generate(self, prompt, style=None)]: [lines] is built by
    successive [append]s, then joined with newlines; [style] is unused. *)
Definition generate (prompt : string) (style : option string) : string :=
  let lines : list string := [] in
  let lines := app lines [Py.capitalize prompt] in
  let lines := app lines [""] in
  let lines := app lines [line1] in
  let lines := app lines [line2] in
  let lines := app lines [line3] in
  let lines := app lines [line4] in
  let lines := app lines [""] in
  let lines := app lines [attribution_prefix ++ prompt] in
  Py.join Py.newline lines.

End PoemGenerator.



(* ------------------------------------------------------------------ *)
(** ** src/app.py: values, exceptions and the effects of a request *)

Module App.

(** Python values that flow through the handler. [VPath] is a
    [pathlib.Path], which [jsonify] cannot serialise. *)
Inductive pyval :=
| VNone
| VBool (b : bool)
| VInt (z : Z)
| VStr (s : string)
| VList (l : list pyval)
| VDict (kvs : list (string * pyval))
| VPath (p : string).

(** [werkzeug.exceptions.BadRequest] and every other [Exception]. *)
Inductive exn :=
| BadRequest (description : string)
| Other (message : string).

(** [str(e)]: werkzeug renders an HTTP exception as "400 Bad Request: ...". *)
Definition exn_str (x : exn) : string :=
  match x with
  | BadRequest d => "400 Bad Request: " ++ d
  | Other m => m
  end.

Inductive outcome (A : Type) :=
| Ok (a : A)
| Exc (x : exn).
Arguments Ok {A} a.
Arguments Exc {A} x.

(** [type(v).__name__] *)
Definition type_name (v : pyval) : string :=
  match v with
  | VNone => "NoneType"
  | VBool _ => "bool"
  | VInt _ => "int"
  | VStr _ => "str"
  | VList _ => "list"
  | VDict _ => "dict"
  | VPath _ => "PosixPath"
  end.

(** The [AttributeError] of [v.attr] on a value without that method:
    its [str(e)] is "'list' object has no attribute 'get'" and the like. *)
Definition attribute_error (v : pyval) (attr : string) : exn :=
  Other ("'" ++ type_name v ++ "' object has no attribute '" ++ attr ++ "'").

(** A Python dict as an insertion-ordered association list. *)
Fixpoint dict_lookup {V} (k : string) (kvs : list (string * V)) : option V :=
  match kvs with
  | [] => None
  | (k', v) :: r => if String.eqb k k' then Some v else dict_lookup k r
  end.

(** [d[k] = v]: an existing key keeps its position, a new key goes last. *)
Fixpoint dict_set {V} (k : string) (v : V) (kvs : list (string * V))
  : list (string * V) :=
  match kvs with
  | [] => [(k, v)]
  | (k', v') :: r =>
      if String.eqb k k' then (k', v) :: r else (k', v') :: dict_set k v r
  end.

(** [d.get(k, default)] on a value that must be a dict. *)
Definition py_get (d : pyval) (k : string) (default : pyval) : outcome pyval :=
  match d with
  | VDict kvs =>
      match dict_lookup k kvs with Some v => Ok v | None => Ok default end
  | _ => Exc (attribute_error d "get")
  end.

(** [v.strip()] on a value that must be a str. *)
Definition py_strip (v : pyval) : outcome string :=
  match v with
  | VStr s => Ok (Py.strip s)
  | _ => Exc (attribute_error v "strip")
  end.

Fixpoint jsonable (v : pyval) : bool :=
  match v with
  | VPath _ => false
  | VList l =>
      (fix go (l : list pyval) : bool :=
         match l with [] => true | x :: r => jsonable x && go r end) l
  | VDict kvs =>
      (fix go (kvs : list (string * pyval)) : bool :=
         match kvs with [] => true | (_, x) :: r => jsonable x && go r end) kvs
  | _ => true
  end.

(** [jsonify(v)]: Flask's JSON provider raises [TypeError] on a Path. *)
Definition jsonify (v : pyval) : outcome pyval :=
  if jsonable v then Ok v
  else Exc (Other "Object of type PosixPath is not JSON serializable").

(** The parts of a Flask [request] the handlers read: [request.is_json],
    the length of the body in bytes ([request.content_length]) and the
    parsed JSON body ([None]: the body is not valid JSON). *)
Record request := mkRequest {
  is_json : bool;
  content_length : N;
  json_body : option pyval }.

(** [app.config['MAX_CONTENT_LENGTH']] (line 26). *)
Definition MAX_CONTENT_LENGTH : N := (16 * 1024 * 1024)%N.

(** Werkzeug's [RequestEntityTooLarge] (413): an [HTTPException], not a
    [BadRequest]. Reading the body of a request longer than
    [MAX_CONTENT_LENGTH] raises it. *)
Definition request_entity_too_large : exn :=
  Other "413 Request Entity Too Large: The data value transmitted exceeds the capacity limit.".

(** The description of Flask's [BadRequest()] for a body that does not
    parse as JSON (outside debug mode). *)
Definition bad_json_description : string :=
  "The browser (or proxy) sent a request that this server could not understand.".

Inductive producer := Poem | Music | Animation.

Inductive event := Invoke (p : producer).

(** Rows of the two tables created by [init_db] (src/models/database.py). *)
Record content_row := mkContentRow {
  c_content_id : string;
  c_prompt : string;
  c_poem : pyval;
  c_music : pyval;
  c_animation : pyval;
  c_user_id : pyval;
  c_session_id : pyval }.

Record usage_row := mkUsageRow {
  u_endpoint : string;
  u_user_id : pyval;
  u_session_id : pyval;
  u_prompt : string;
  u_success : bool;
  u_error_message : option string;
  u_response_time_ms : Z }.

(** What the outside world answers: clock readings ([time.time()] in
    milliseconds and [datetime.utcnow().isoformat()], indexed by the reading
    number), [uuid.uuid4()] values, and the database errors raised by the
    inserts and reads of the store. *)
Record env := mkEnv {
  time_at : nat -> Z;
  iso_at : nat -> string;
  uuid_at : nat -> string;
  save_fault : option string;
  log_fault : nat -> option string;
  read_fault : option string }.

(** The request's state: the database, the counters of clock readings, uuids
    and [log_usage] calls, the producer invocations, and the Python locals
    [prompt], [user_id], [session_id] of [generate_content], which the
    [except] clauses read after a raise. *)
Record world := mkWorld {
  contents : list content_row;
  usage : list usage_row;
  clock : nat;
  uuids : nat;
  log_calls : nat;
  trace : list event;
  l_prompt : string;
  l_user_id : pyval;
  l_session_id : pyval }.

Definition M (A : Type) := world -> outcome A * world.

Definition ret {A} (a : A) : M A := fun w => (Ok a, w).
Definition bind {A B} (m : M A) (f : A -> M B) : M B :=
  fun w => match m w with
           | (Ok a, w') => f a w'
           | (Exc x, w') => (Exc x, w')
           end.
Definition raise {A} (x : exn) : M A := fun w => (Exc x, w).
Definition lift {A} (o : outcome A) : M A := fun w => (o, w).
(** [try: m except Exception as x: h(x)] *)
Definition try_ {A} (m : M A) (h : exn -> M A) : M A :=
  fun w => match m w with
           | (Exc x, w') => h x w'
           | r => r
           end.

Notation "x <- m ;; k" := (bind m (fun x => k))
  (at level 61, m at next level, right associativity).
Notation "m ;;; k" := (bind m (fun _ => k))
  (at level 61, right associativity).

Definition time_time (E : env) : M Z :=
  fun w => (Ok (time_at E (clock w)),
            mkWorld (contents w) (usage w) (S (clock w)) (uuids w)
                    (log_calls w) (trace w) (l_prompt w) (l_user_id w)
                    (l_session_id w)).

Definition utcnow_iso (E : env) : M string :=
  fun w => (Ok (iso_at E (clock w)),
            mkWorld (contents w) (usage w) (S (clock w)) (uuids w)
                    (log_calls w) (trace w) (l_prompt w) (l_user_id w)
                    (l_session_id w)).

Definition uuid4 (E : env) : M string :=
  fun w => (Ok (uuid_at E (uuids w)),
            mkWorld (contents w) (usage w) (clock w) (S (uuids w))
                    (log_calls w) (trace w) (l_prompt w) (l_user_id w)
                    (l_session_id w)).

Definition emit (e : event) : M unit :=
  fun w => (Ok tt,
            mkWorld (contents w) (usage w) (clock w) (uuids w)
                    (log_calls w) (trace w ++ [e]) (l_prompt w) (l_user_id w)
                    (l_session_id w)).

Definition set_prompt (p : string) : M unit :=
  fun w => (Ok tt,
            mkWorld (contents w) (usage w) (clock w) (uuids w)
                    (log_calls w) (trace w) p (l_user_id w) (l_session_id w)).

Definition set_user_id (u : pyval) : M unit :=
  fun w => (Ok tt,
            mkWorld (contents w) (usage w) (clock w) (uuids w)
                    (log_calls w) (trace w) (l_prompt w) u (l_session_id w)).

Definition set_session_id (s : pyval) : M unit :=
  fun w => (Ok tt,
            mkWorld (contents w) (usage w) (clock w) (uuids w)
                    (log_calls w) (trace w) (l_prompt w) (l_user_id w) s).

Definition get_world : M world := fun w => (Ok w, w).

(** *** The content store (models/content.py is not in the sources) *)

(** Modelled from the spec: [ContentModel] of models/content.py, which is
    missing. Section 4.4: a constructor without failure conditions,
    [save_content(...) -> content_id] inserting one row of the [content]
    table (the TEXT columns hold JSON, so a non-serialisable value raises;
    [content_id] is UNIQUE in [init_db]'s schema, so a taken id raises),
    [log_usage(...)] an append-only insert into [usage_stats], and
    [get_content(id) -> record | not-found]. Every insert or read may fail
    with a database error; which one fails is part of [env]. *)
Definition content_model_new : M unit := ret tt.

(** Modelled from the spec: [ContentModel.save_content], one insert into
    the [content] table under a fresh [uuid4()] id. *)
Definition save_content (E : env) (prompt : string) (poem music animation user_id
    session_id : pyval) : M string :=
  fun w =>
    match save_fault E with
    | Some m => (Exc (Other m), w)
    | None =>
        if jsonable poem && jsonable music && jsonable animation then
          let cid := uuid_at E (uuids w) in
          let w1 := mkWorld (contents w) (usage w) (clock w) (S (uuids w))
                      (log_calls w) (trace w) (l_prompt w) (l_user_id w)
                      (l_session_id w) in
          if existsb (fun r => String.eqb (c_content_id r) cid) (contents w)
          then (Exc (Other "UNIQUE constraint failed: content.content_id"), w1)
          else
            (Ok cid,
             mkWorld (contents w1 ++ [mkContentRow cid prompt poem music
                                        animation user_id session_id])
                     (usage w1) (clock w1) (uuids w1) (log_calls w1) (trace w1)
                     (l_prompt w1) (l_user_id w1) (l_session_id w1))
        else (Exc (Other "Object of type PosixPath is not JSON serializable"), w)
    end.

(** Modelled from the spec: [ContentModel.log_usage], one append to
    [usage_stats]. *)
Definition log_usage (E : env) (endpoint : string) (user_id session_id : pyval)
    (prompt : string) (success : bool) (error_message : option string)
    (response_time_ms : Z) : M unit :=
  fun w =>
    let n := log_calls w in
    match log_fault E n with
    | Some m =>
        (Exc (Other m),
         mkWorld (contents w) (usage w) (clock w) (uuids w) (S n) (trace w)
                 (l_prompt w) (l_user_id w) (l_session_id w))
    | None =>
        (Ok tt,
         mkWorld (contents w)
                 (usage w ++ [mkUsageRow endpoint user_id session_id prompt
                                success error_message response_time_ms])
                 (clock w) (uuids w) (S n) (trace w)
                 (l_prompt w) (l_user_id w) (l_session_id w))
    end.

(** Modelled from the spec: the record [get_content] returns for a row. *)
Definition content_row_dict (r : content_row) : pyval :=
  VDict [("content_id", VStr (c_content_id r)); ("prompt", VStr (c_prompt r));
         ("poem", c_poem r); ("music", c_music r);
         ("animation", c_animation r); ("user_id", c_user_id r);
         ("session_id", c_session_id r)].

(** Modelled from the spec: [ContentModel.get_content], the row with that
    [content_id], if any. *)
Definition get_content_row (E : env) (content_id : string) : M (option pyval) :=
  fun w =>
    match read_fault E with
    | Some m => (Exc (Other m), w)
    | None =>
        (Ok (option_map content_row_dict
               (find (fun r => String.eqb (c_content_id r) content_id)
                     (contents w))), w)
    end.

(** *** The generators and [generate_content] *)

(** A producer's [generate(prompt, style)]: its result or the exception it
    raises. MusicGenerator (generators/music_generator.py) is not in the
    sources, so producers are kept abstract; the poem one is below. *)
Definition producer_fn := string -> pyval -> outcome pyval.

(** The module-level [poem_gen], [music_gen], [animation_gen] ([None] when
    unavailable). *)
Record gens := mkGens {
  poem_gen : option producer_fn;
  music_gen : option producer_fn;
  animation_gen : option producer_fn }.

(** [PoemGenerator().generate]: it ignores [style] and cannot raise on a str. *)
Definition poem_instance : producer_fn :=
  fun prompt style =>
    Ok (VStr (PoemGenerator.generate prompt
                (match style with VStr s => Some s | _ => None end))).

Definition results_t := list (string * pyval).
Definition errors_t := list (string * string).

(** One of the three [try: if gen: ... else: errors[k] = ... except Exception
    as e: errors[k] = str(e)] blocks of lines 125-156. The style argument
    [options.get(style_key, default)] is evaluated before the call. *)
Definition producer_block (k : producer) (key : string)
    (gen : option producer_fn) (style_key default_style unavailable : string)
    (options : pyval) (prompt : string) (acc : results_t * errors_t)
  : M (results_t * errors_t) :=
  let '(results, errors) := acc in
  try_
    (match gen with
     | Some f =>
         style <- lift (py_get options style_key (VStr default_style)) ;;
         emit (Invoke k) ;;;
         v <- lift (f prompt style) ;;
         ret (dict_set key v results, errors)
     | None => ret (results, dict_set key unavailable errors)
     end)
    (fun x => ret (results, dict_set key (exn_str x) errors)).

Definition run_producers (G : gens) (options : pyval) (prompt : string)
  : M (results_t * errors_t) :=
  acc <- producer_block Poem "poem" (poem_gen G) "poem_style" "festival"
           "Poem generator not available" options prompt ([], []) ;;
  acc <- producer_block Music "music" (music_gen G) "music_style" "celebration"
           "Music generator not available" options prompt acc ;;
  producer_block Animation "animation" (animation_gen G) "animation_style"
    "festival" "Animation generator not available" options prompt acc.

Definition errors_val (errors : errors_t) : pyval :=
  VDict (map (fun '(k, m) => (k, VStr m)) errors).

Definition results_get (results : results_t) (k : string) : pyval :=
  match dict_lookup k results with Some v => v | None => VNone end.

Record response := mkResponse { code : Z; body : pyval }.

(** The response dict of lines 172-182. *)
Definition success_body (prompt : string) (results : results_t)
    (errors : errors_t) (ts : string) (session_id : pyval)
  : list (string * pyval) :=
  let response := [("status", VStr "success"); ("prompt", VStr prompt);
                   ("results", VDict results); ("timestamp", VStr ts);
                   ("session_id", session_id)] in
  match errors with
  | [] => response
  | _ => dict_set "status" (VStr "partial_success")
           (dict_set "errors" (errors_val errors) response)
  end.

(** [request.get_json()] after [request.is_json] held: [get_data()]
    checks the length first, then the body is parsed. *)
Definition get_json (req : request) : M pyval :=
  if N.ltb MAX_CONTENT_LENGTH (content_length req) then raise request_entity_too_large
  else
    match json_body req with
    | Some d => ret d
    | None => raise (BadRequest bad_json_description)
    end.

(** Lines 104-116 of the outer [try]: request checks and the locals
    [prompt], [user_id], [session_id] (the default of [data.get('session_id',
    str(uuid.uuid4()))] is evaluated before the call). *)
Definition validate_request (E : env) (req : request)
  : M (pyval * string * pyval * pyval) :=
  (if is_json req then ret tt
   else raise (BadRequest "Content-Type must be application/json")) ;;;
  data <- get_json req ;;
  p <- lift (py_get data "prompt" (VStr "")) ;;
  prompt <- lift (py_strip p) ;;
  set_prompt prompt ;;;
  user_id <- lift (py_get data "user_id" (VStr "anonymous")) ;;
  set_user_id user_id ;;;
  fresh <- uuid4 E ;;
  session_id <- lift (py_get data "session_id" (VStr fresh)) ;;
  set_session_id session_id ;;;
  (if String.eqb prompt "" then
     raise (BadRequest "Prompt is required and cannot be empty")
   else ret tt) ;;;
  (if Nat.ltb 500 (String.length prompt) then
     raise (BadRequest "Prompt too long. Maximum 500 characters allowed")
   else ret tt) ;;;
  ret (data, prompt, user_id, session_id).

(** Lines 158-170: the save is wrapped; a failure leaves [results] as is. *)
Definition save_step (E : env) (prompt : string) (results : results_t)
    (user_id session_id : pyval) : M results_t :=
  try_
    (cid <- save_content E prompt (results_get results "poem")
              (results_get results "music") (results_get results "animation")
              user_id session_id ;;
     ret (dict_set "content_id" (VStr cid) results))
    (fun _ => ret results).

(** Lines 172-193: the response, the usage record, [jsonify]. *)
Definition finish (E : env) (prompt : string) (results : results_t)
    (errors : errors_t) (user_id session_id : pyval) (start : Z)
  : M response :=
  ts <- utcnow_iso E ;;
  let response := success_body prompt results errors ts session_id in
  t <- time_time E ;;
  log_usage E "/api/generate" user_id session_id prompt true None (t - start) ;;;
  b <- lift (jsonify (VDict response)) ;;
  ret (mkResponse 200 b).

(** Lines 118-193. *)
Definition generate_body (G : gens) (E : env) (data : pyval) (prompt : string)
    (user_id session_id : pyval) (start : Z) : M response :=
  options <- lift (py_get data "options" (VDict [])) ;;
  acc <- run_producers G options prompt ;;
  let '(results, errors) := acc in
  content_model_new ;;;
  results <- save_step E prompt results user_id session_id ;;
  finish E prompt results errors user_id session_id start.

(** The body of the outer [try] (lines 104-193). *)
Definition generate_try (G : gens) (E : env) (req : request) (start : Z)
  : M response :=
  v <- validate_request E req ;;
  let '(data, prompt, user_id, session_id) := v in
  generate_body G E data prompt user_id session_id start.

(** [except BadRequest as e:] (lines 195-212). *)
Definition bad_request_path (E : env) (start : Z) (x : exn) : M response :=
  t <- time_time E ;;
  content_model_new ;;;
  w <- get_world ;;
  log_usage E "/api/generate" (l_user_id w) (l_session_id w) (l_prompt w)
    false (Some (exn_str x)) (t - start) ;;;
  ts <- utcnow_iso E ;;
  b <- lift (jsonify (VDict [("status", VStr "error");
                             ("error", VStr (exn_str x));
                             ("timestamp", VStr ts)])) ;;
  ret (mkResponse 400 b).

(** [except Exception as e:] (lines 214-231). *)
Definition internal_error_path (E : env) (start : Z) : M response :=
  t <- time_time E ;;
  content_model_new ;;;
  w <- get_world ;;
  log_usage E "/api/generate" (l_user_id w) (l_session_id w) (l_prompt w)
    false (Some "Internal server error") (t - start) ;;;
  ts <- utcnow_iso E ;;
  b <- lift (jsonify (VDict [("status", VStr "error");
                             ("error", VStr "Internal server error. Please try again.");
                             ("timestamp", VStr ts)])) ;;
  ret (mkResponse 500 b).

Definition is_bad_request (x : exn) : bool :=
  match x with BadRequest _ => true | Other _ => false end.

(** [generate_content()] (lines 96-231). *)
Definition generate_content (G : gens) (E : env) (req : request)
  : M response :=
  start <- time_time E ;;
  set_user_id (VStr "anonymous") ;;;
  sid <- uuid4 E ;;
  set_session_id (VStr sid) ;;;
  set_prompt "" ;;;
  try_ (generate_try G E req start)
       (fun x => if is_bad_request x then bad_request_path E start x
                 else internal_error_path E start).

(** Flask: an exception escaping a view goes to [@app.errorhandler(500)]. *)
Definition flask_serve (view : M response) : M response :=
  try_ view
       (fun _ => ret (mkResponse 500 (VDict [("status", VStr "error");
                                             ("error", VStr "Internal server error")]))).

Definition post_generate (G : gens) (E : env) (req : request) : M response :=
  flask_serve (generate_content G E req).

(** [get_content(content_id)] (lines 284-302). *)
Definition get_content (E : env) (content_id : string) : M response :=
  try_
    (content_model_new ;;;
     content <- get_content_row E content_id ;;
     match content with
     | None =>
         b <- lift (jsonify (VDict [("error", VStr "Content not found")])) ;;
         ret (mkResponse 404 b)
     | Some c =>
         ts <- utcnow_iso E ;;
         b <- lift (jsonify (VDict [("status", VStr "success"); ("content", c);
                                    ("timestamp", VStr ts)])) ;;
         ret (mkResponse 200 b)
     end)
    (fun _ =>
       b <- lift (jsonify (VDict [("error", VStr "Failed to retrieve content")])) ;;
       ret (mkResponse 500 b)).

Definition get_content_route (E : env) (content_id : string) : M response :=
  flask_serve (get_content E content_id).

(** *** Module-level initialisation (lines 39-47) *)

Definition type_error_missing_output_dir :=
  Other "__init__() missing 1 required positional argument: 'output_dir'".

(** [PoemGenerator.__init__(self)] takes no argument. *)
Definition poem_generator_new (args : list pyval) : outcome unit :=
  match args with
  | [] => Ok tt
  | _ => Exc (Other "__init__() takes 1 positional argument")
  end.

(** [AnimationGenerator.__init__(self, output_dir)] takes exactly one. *)
Definition animation_generator_new (args : list pyval) : outcome unit :=
  match args with
  | [_] => Ok tt
  | [] => Exc type_error_missing_output_dir
  | _ => Exc (Other "__init__() takes 2 positional arguments")
  end.

(** [try: poem_gen = PoemGenerator(); music_gen = MusicGenerator();
    animation_gen = AnimationGenerator() except Exception: all None].
    [music_new] is the outcome of [MusicGenerator()] (not in the sources)
    and [animation_generate] the bound [generate] of the instance. *)
Definition init_generators (music_new : outcome producer_fn)
    (animation_generate : producer_fn) : gens :=
  match poem_generator_new [] with
  | Exc _ => mkGens None None None
  | Ok _ =>
      match music_new with
      | Exc _ => mkGens None None None
      | Ok m =>
          match animation_generator_new [] with
          | Exc _ => mkGens None None None
          | Ok _ => mkGens (Some poem_instance) (Some m) (Some animation_generate)
          end
      end
  end.

(** *** Observations used in the statements *)

(** The entry the block of a producer leaves in [errors] ([None]: none). *)
Definition block_error (gen : option producer_fn) (style_key default_style
    unavailable : string) (options : pyval) (prompt : string) : option string :=
  match gen with
  | None => Some unavailable
  | Some f =>
      match py_get options style_key (VStr default_style) with
      | Exc x => Some (exn_str x)
      | Ok style =>
          match f prompt style with
          | Exc x => Some (exn_str x)
          | Ok _ => None
          end
      end
  end.

(** Whether the block of a producer calls its [generate]. *)
Definition block_invokes (gen : option producer_fn) (style_key
    default_style : string) (options : pyval) : bool :=
  match gen with
  | None => false
  | Some _ =>
      match py_get options style_key (VStr default_style) with
      | Ok _ => true
      | Exc _ => false
      end
  end.

(** [d.get(k, default)] on a dict. *)
Definition dict_get (kvs : list (string * pyval)) (k : string) (default : pyval)
  : pyval :=
  match dict_lookup k kvs with Some v => v | None => default end.

Definition request_options (kvs : list (string * pyval)) : pyval :=
  dict_get kvs "options" (VDict []).

(** The value the block of a producer stores in [results] ([None]: none). *)
Definition block_result (gen : option producer_fn) (style_key
    default_style : string) (options : pyval) (prompt : string) : option pyval :=
  match gen with
  | None => None
  | Some f =>
      match py_get options style_key (VStr default_style) with
      | Exc _ => None
      | Ok style =>
          match f prompt style with
          | Exc _ => None
          | Ok v => Some v
          end
      end
  end.

Definition set_opt {V} (k : string) (o : option V) (kvs : list (string * V))
  : list (string * V) :=
  match o with Some v => dict_set k v kvs | None => kvs end.

(** The [results] and [errors] maps after the three blocks, and the
    [generate] calls made, as the blocks compute them one after the other. *)
Definition producers_results (G : gens) (options : pyval) (prompt : string)
  : results_t :=
  set_opt "animation" (block_result (animation_gen G) "animation_style"
                         "festival" options prompt)
    (set_opt "music" (block_result (music_gen G) "music_style" "celebration"
                        options prompt)
       (set_opt "poem" (block_result (poem_gen G) "poem_style" "festival"
                          options prompt) [])).

Definition producers_errors (G : gens) (options : pyval) (prompt : string)
  : errors_t :=
  set_opt "animation" (block_error (animation_gen G) "animation_style"
                         "festival" "Animation generator not available"
                         options prompt)
    (set_opt "music" (block_error (music_gen G) "music_style" "celebration"
                        "Music generator not available" options prompt)
       (set_opt "poem" (block_error (poem_gen G) "poem_style" "festival"
                          "Poem generator not available" options prompt) [])).

Definition producers_events (G : gens) (options : pyval) : list event :=
  (if block_invokes (poem_gen G) "poem_style" "festival" options
   then [Invoke Poem] else []) ++
  (if block_invokes (music_gen G) "music_style" "celebration" options
   then [Invoke Music] else []) ++
  (if block_invokes (animation_gen G) "animation_style" "festival" options
   then [Invoke Animation] else []).

Definition add_trace (w : world) (evs : list event) : world :=
  mkWorld (contents w) (usage w) (clock w) (uuids w) (log_calls w)
          (trace w ++ evs) (l_prompt w) (l_user_id w) (l_session_id w).

Definition body_field (r : response) (k : string) : option pyval :=
  match body r with VDict kvs => dict_lookup k kvs | _ => None end.

Definition result_field (r : response) (k : string) : option pyval :=
  match body_field r "results" with
  | Some (VDict res) => dict_lookup k res
  | _ => None
  end.

(** The response [r] with [content_id] added to its [results]. *)
Definition add_content_id (cid : string) (r : response) : response :=
  match body r with
  | VDict kvs =>
      match dict_lookup "results" kvs with
      | Some (VDict res) =>
          mkResponse (code r)
            (VDict (dict_set "results"
                       (VDict (dict_set "content_id" (VStr cid) res)) kvs))
      | _ => r
      end
  | _ => r
  end.

Definition with_save_fault (E : env) (f : option string) : env :=
  mkEnv (time_at E) (iso_at E) (uuid_at E) f (log_fault E) (read_fault E).

End App.

(* ------------------------------------------------------------------ *)
(** ** src/generators/animation_generator.py *)

Module Animation.
Import App.

Definition color := (Z * Z * Z)%type.

(** What [_make_frame_image] draws: a [size] canvas filled with [color_rgb]
    carrying [multiline_text((40, 40), wrapped, fill=white)]. *)
Record image := mkImage {
  img_size : Z * Z;
  img_color : color;
  img_text_at : Z * Z;
  img_text : string;
  img_fill : color }.

(** A moviepy [ImageClip] after [set_duration] and [resize]. *)
Record clip := mkClip {
  clip_frame : image;
  clip_duration : Q;
  clip_size : Z * Z }.

(** [AudioFileClip(source).subclip(start, end)] *)
Record audio_track := mkAudio {
  audio_source : string;
  audio_start : Q;
  audio_end : Q }.

(** The result of [concatenate_videoclips] and [set_audio]. *)
Record video := mkVideo {
  v_clips : list clip;
  v_audio : option audio_track }.

Definition video_duration (v : video) : Q :=
  fold_right Qplus 0%Q (map clip_duration (v_clips v)).

Inductive file :=
| FImage (i : image)
| FAudio (duration : Q)
| FVideo (v : video)
| FOther.

(** The disk: paths to files. *)
Definition fs := list (string * file).

(** How the disk answers an attempt to write a file: [WriteOk] writes it,
    [WriteRefused] fails at [open()] and changes nothing, [WriteBroken]
    opens the file (creating or truncating it) and then fails. *)
Inductive write_result := WriteOk | WriteRefused | WriteBroken.

(** The instance and the libraries it calls: [self.output_dir],
    [textwrap.fill], the file a path string names ([os.path.realpath],
    relative paths against the working directory) and how the disk answers
    a write to a file. The disk is keyed by the files, so [out/a.png] and
    [./out/a.png] name the same entry. *)
Record ctx := mkCtx {
  output_dir : string;
  textwrap_fill : string -> nat -> string;
  resolve : string -> string;
  write_at : string -> write_result }.

Definition FM (A : Type) := fs -> outcome A * fs.

Definition fret {A} (a : A) : FM A := fun d => (Ok a, d).
Definition fbind {A B} (m : FM A) (f : A -> FM B) : FM B :=
  fun d => match m d with
           | (Ok a, d') => f a d'
           | (Exc x, d') => (Exc x, d')
           end.
Definition fraise {A} (x : exn) : FM A := fun d => (Exc x, d).

Notation "x <-- m ;; k" := (fbind m (fun x => k))
  (at level 61, m at next level, right associativity).

(** [os.remove] on the disk. *)
Definition dict_remove {V} (k : string) (d : list (string * V)) : list (string * V) :=
  filter (fun kv => negb (String.eqb k (fst kv))) d.

(** [Path(p).exists()] and [os.path.exists(p)] *)
Definition exists_path (C : ctx) (p : string) : FM bool :=
  fun d => (Ok (match dict_lookup (resolve C p) d with Some _ => true | None => false end), d).

(** [os.remove(p)] *)
Definition remove_file (C : ctx) (p : string) : FM unit :=
  fun d => (Ok tt, dict_remove (resolve C p) d).

(** [self.output_dir / fname] *)
Definition join_path (C : ctx) (fname : string) : string :=
  output_dir C ++ "/" ++ fname.

(** [_make_frame_image(text, color_rgb, size)]; the font (truetype with a
    default fallback) does not change what is drawn where. *)
Definition make_frame_image (C : ctx) (text : string) (color_rgb : color)
    (size : Z * Z) : image :=
  let margin := 40%Z in
  let wrapped := textwrap_fill C text 30 in
  mkImage size color_rgb (margin, margin) wrapped (255, 255, 255)%Z.

(** [img.save(p)]: PIL opens the file with ["w+b"]; when the encoder then
    fails it removes the file if the call created it, and otherwise leaves
    the truncated file. *)
Definition save_image (C : ctx) (p : string) (img : image) : FM unit :=
  fun d => let f := resolve C p in
           match write_at C f with
           | WriteOk => (Ok tt, dict_set f (FImage img) d)
           | WriteRefused => (Exc (Other "OSError"), d)
           | WriteBroken =>
               (Exc (Other "OSError"),
                match dict_lookup f d with Some _ => dict_set f FOther d | None => d end)
           end.

(** [ImageClip(str(p)).set_duration(1.0).resize((720,720))] *)
Definition image_clip (C : ctx) (p : string) : FM clip :=
  fun d => match dict_lookup (resolve C p) d with
           | Some (FImage img) => (Ok (mkClip img 1%Q (720, 720)%Z), d)
           | _ => (Exc (Other "OSError"), d)
           end.

(** The duration ffmpeg reports for a file that has an audio stream: an
    audio file, or a video with an audio track (the container's duration,
    which is the video's). *)
Definition audio_of (f : file) : option Q :=
  match f with
  | FAudio dur => Some dur
  | FVideo v => match v_audio v with Some _ => Some (video_duration v) | None => None end
  | _ => None
  end.

(** [AudioFileClip(str(p))]: the duration of the file's audio stream; a
    missing file or one without audio raises. *)
Definition audio_file_clip (C : ctx) (p : string) : FM Q :=
  fun d => match option_map audio_of (dict_lookup (resolve C p) d) with
           | Some (Some dur) => (Ok dur, d)
           | _ => (Exc (Other "OSError: failed to read the audio"), d)
           end.

(** An [ffmpeg -y] run writing [p]: the file is created or truncated when
    it is opened, so a run that fails after that leaves a broken file. *)
Definition ffmpeg_write (C : ctx) (p : string) (content : file) : FM unit :=
  fun d => let f := resolve C p in
           match write_at C f with
           | WriteOk => (Ok tt, dict_set f content d)
           | WriteRefused => (Exc (Other "OSError"), d)
           | WriteBroken => (Exc (Other "OSError"), dict_set f FOther d)
           end.

(** [os.path.basename] *)
Fixpoint basename (s : string) : string :=
  match s with
  | EmptyString => EmptyString
  | String c r =>
      if existsb (Ascii.eqb "/"%char) (list_ascii_of_string r) then basename r
      else if Ascii.eqb c "/"%char then r else s
  end.

Fixpoint rfind_aux (c : ascii) (l : list ascii) (i acc : Z) : Z :=
  match l with
  | [] => acc
  | x :: r => rfind_aux c r (i + 1) (if Ascii.eqb x c then i else acc)
  end.

(** [s.rfind(c)] *)
Definition rfind (c : ascii) (s : string) : Z := rfind_aux c (list_ascii_of_string s) 0 (-1).

(** [os.path.splitext(p)[0]] (posixpath, [genericpath._splitext]): the
    part before the last dot, unless that dot is before the last slash or
    only dots precede it in the last component. *)
Definition splitext_root (p : string) : string :=
  let l := list_ascii_of_string p in
  let sepIndex := rfind "/"%char p in
  let dotIndex := rfind "."%char p in
  if Z.ltb sepIndex dotIndex then
    let filenameIndex := Z.to_nat (sepIndex + 1) in
    let between := firstn (Z.to_nat dotIndex - filenameIndex) (skipn filenameIndex l) in
    if existsb (fun c => negb (Ascii.eqb c "."%char)) between
    then string_of_list_ascii (firstn (Z.to_nat dotIndex) l)
    else p
  else p.

(** [find_extension('aac')]: the first format of moviepy's table listing
    the codec, [mp4]. *)
Definition aac_extension : string := "mp4".

(** moviepy's temporary audio file of [write_videofile(filename)]:
    [name + "TEMP_MPY_" + "wvf_snd." + audio_ext], a path relative to the
    working directory. *)
Definition temp_audiofile (filename : string) : string :=
  splitext_root (basename filename) ++ "TEMP_MPY_" ++ "wvf_snd." ++ aac_extension.

(** [video.write_videofile(str(out_path), codec='libx264', fps=24,
    audio_codec='aac', ...)] (moviepy 1.x): with an audio track it writes
    the track to the temporary audio file, then runs ffmpeg on the video,
    then removes the temporary file if it exists; a failure on the way
    raises and skips the rest. *)
Definition write_videofile (C : ctx) (filename : string) (v : video) : FM unit :=
  match v_audio v with
  | Some a =>
      let audiofile := temp_audiofile filename in
      _ <-- ffmpeg_write C audiofile (FAudio (audio_end a - audio_start a)) ;;
      _ <-- ffmpeg_write C filename (FVideo v) ;;
      ex <-- exists_path C audiofile ;;
      if ex then remove_file C audiofile else fret tt
  | None => ffmpeg_write C filename (FVideo v)
  end.

Definition palettes : list color :=
  [(20, 160, 255); (200, 50, 120); (60, 180, 75); (255, 150, 20)]%Z.

Definition digit (n : nat) : ascii := ascii_of_nat (48 + n).

(** [str(n)] for a natural number. *)
Fixpoint nat_str_aux (fuel n : nat) (acc : string) : string :=
  match fuel with
  | O => acc
  | S f => let acc' := String (digit (n mod 10)) acc in
           if Nat.ltb n 10 then acc' else nat_str_aux f (n / 10) acc'
  end.
Definition nat_str (n : nat) : string := nat_str_aux (S n) n "".

(** [uid or x] for an optional str [uid]. *)
Definition uid_or (uid : option string) (x : string) : string :=
  match uid with
  | Some u => if String.eqb u "" then x else u
  | None => x
  end.

(** [s.split('\n')[0]] *)
Fixpoint first_line (s : string) : string :=
  match s with
  | EmptyString => EmptyString
  | String c r => if Ascii.eqb c (ascii_of_nat 10) then EmptyString
                  else String c (first_line r)
  end.

(** [s or t] for strings. *)
Definition str_or (s t : string) : string := if String.eqb s "" then t else s.

Definition frame_name (uid : option string) (i : nat) : string :=
  "frame_" ++ uid_or uid (nat_str i) ++ "_" ++ nat_str i ++ ".png".

(** The loop [for i, pal in enumerate(palettes[:3])], from index [i]. *)
Fixpoint render_frames (C : ctx) (uid : option string) (prompt : string)
    (texts : list string) (pals : list color) (i : nat) : FM (list string) :=
  match pals with
  | [] => fret []
  | pal :: rest =>
      let img := make_frame_image C
                   (str_or (nth (i mod length texts) texts "") prompt) pal
                   (720, 720)%Z in
      let p := join_path C (frame_name uid i) in
      _ <-- save_image C p img ;;
      ps <-- render_frames C uid prompt texts rest (S i) ;;
      fret (p :: ps)
  end.

Fixpoint image_clips (C : ctx) (ps : list string) : FM (list clip) :=
  match ps with
  | [] => fret []
  | p :: r => c <-- image_clip C p ;; cs <-- image_clips C r ;; fret (c :: cs)
  end.

(** [round(x, 2)] *)
Definition round2 (q : Q) : Q := Qmake (Qfloor (q * 100 + (1 # 2))%Q) 100.

Record artifact := mkArtifact { art_path : string; art_duration : Q }.

(** [music_path and Path(music_path).exists()] for an optional str path. *)
Definition music_given (music_path : option string) : option string :=
  match music_path with
  | Some p => if String.eqb p "" then None else Some p
  | None => None
  end.

(** [AnimationGenerator.generate(self, prompt, poem_text, music_path, uid)] *)
Definition generate (C : ctx) (prompt : string) (poem_text : option string)
    (music_path : option string) (uid : option string) : FM artifact :=
  let texts := [prompt; first_line (match poem_text with
                                    | Some t => t | None => "" end)] in
  frames <-- render_frames C uid prompt texts (firstn 3 palettes) 0 ;;
  clips <-- image_clips C frames ;;
  let video := mkVideo clips None in
  let out_path := join_path C ("video_" ++ uid_or uid "anon" ++ ".mp4") in
  video <--
    (match music_given music_path with
     | Some mp =>
         ex <-- exists_path C mp ;;
         if ex then
           adur <-- audio_file_clip C mp ;;
           fret (mkVideo (v_clips video)
                   (Some (mkAudio mp 0%Q (Qmin (video_duration video) adur))))
         else fret video
     | None => fret video
     end) ;;
  let duration := round2 (video_duration video) in
  _ <-- write_videofile C out_path video ;;
  fret (mkArtifact out_path duration).

(** The paths of the three frames a call writes. *)
Definition frame_paths (C : ctx) (uid : option string) : list string :=
  map (fun i => join_path C (frame_name uid i)) [0; 1; 2].

(** [out_path] of a call. *)
Definition video_path (C : ctx) (uid : option string) : string :=
  join_path C ("video_" ++ uid_or uid "anon" ++ ".mp4").

(** The files a call may write: its frames, its video and the temporary
    audio file of [write_videofile]. *)
Definition output_files (C : ctx) (uid : option string) : list string :=
  map (resolve C) (frame_paths C uid ++ [video_path C uid; temp_audiofile (video_path C uid)]).

(** The clips of the three frames: texts [prompt], the first poem line or
    [prompt], then [prompt]; the first three palette colours; 720x720, 1 s. *)
Definition expected_clips (C : ctx) (prompt : string) (poem_text : option string)
  : list clip :=
  map (fun '(t, pal) =>
         mkClip (mkImage (720, 720)%Z pal (40, 40)%Z (textwrap_fill C t 30)
                   (255, 255, 255)%Z) 1%Q (720, 720)%Z)
    [(prompt, (20, 160, 255)%Z);
     (str_or (first_line (match poem_text with Some t => t | None => "" end)) prompt,
      (200, 50, 120)%Z);
     (prompt, (60, 180, 75)%Z)].

(** The disk after the three frames of a call are saved. *)
Definition frames_disk (C : ctx) (uid : option string) (prompt : string)
    (poem_text : option string) (d : fs) : fs :=
  let texts := [prompt; first_line (match poem_text with
                                    | Some t => t | None => "" end)] in
  let frame i pal :=
    FImage (make_frame_image C (str_or (nth (i mod length texts) texts "") prompt)
              pal (720, 720)%Z) in
  dict_set (resolve C (join_path C (frame_name uid 2))) (frame 2 (60, 180, 75)%Z)
    (dict_set (resolve C (join_path C (frame_name uid 1))) (frame 1 (200, 50, 120)%Z)
       (dict_set (resolve C (join_path C (frame_name uid 0))) (frame 0 (20, 160, 255)%Z) d)).

(** Sample calls: paths relative to the working directory, where a leading
    [./] names the same file. *)
Fixpoint drop_dot_slash (s : string) : string :=
  match s with
  | String "."%char (String "/"%char r) => drop_dot_slash r
  | _ => s
  end.

Definition sample_ctx : ctx := mkCtx "out" (fun s _ => s) drop_dot_slash (fun _ => WriteOk).
Definition audio_disk : fs := [("m.wav", FAudio 5%Q)].
Definition notes_disk : fs := [("notes.txt", FOther)].

(** A video of 2 s with an audio track. *)
Definition song_video : video :=
  mkVideo [mkClip (mkImage (720, 720)%Z (0, 0, 0)%Z (40, 40)%Z "" (255, 255, 255)%Z)
             2%Q (720, 720)%Z]
    (Some (mkAudio "m.wav" 0 2)).
Definition song_disk : fs := [("song.mp4", FVideo song_video)].


End Animation.

(* ------------------------------------------------------------------ *)
(** ** src/models/database.py: the thread-local connection *)

Module Conn.

(** One worker thread: [_local.connection] (a connection number or [None]),
    the connections that are still open, and the next connection number.
    [connect_fails] says whether [sqlite3.connect] raises. *)
Record thread := mkThread {
  cached : option nat;
  open_conns : list nat;
  next_conn : nat }.

Inductive db_result (A : Type) := DOk (a : A) (t : thread) | DErr (msg : string) (t : thread).
Arguments DOk {A} a t.
Arguments DErr {A} msg t.

(** [get_db_connection()]: the cached connection if there is one, else a
    new one; on a connect error it logs and returns [None]. *)
Definition get_db_connection (connect_fails : bool) (t : thread)
  : option nat * thread :=
  match cached t with
  | Some c => (Some c, t)
  | None =>
      if connect_fails then (None, t)
      else let c := next_conn t in
           (Some c, mkThread (Some c) (c :: open_conns t) (S c))
  end.

(** [conn.close()]: closing an already closed sqlite3 connection does
    nothing. *)
Definition close (c : nat) (t : thread) : thread :=
  mkThread (cached t) (filter (fun c' => negb (Nat.eqb c c')) (open_conns t))
           (next_conn t).

(** [close_db_connection()] *)
Definition close_db_connection (t : thread) : thread :=
  match cached t with
  | Some c => let t1 := close c t in mkThread None (open_conns t1) (next_conn t1)
  | None => t
  end.

(** The database part of [health_check()] (lines 73-82): the status. *)
Definition health_check (connect_fails : bool) (t : thread) : string * thread :=
  match get_db_connection connect_fails t with
  | (Some c, t1) => ("healthy", close c t1)
  | (None, t1) => ("unavailable", t1)
  end.

(** [get_db_cursor()] up to the first statement: an operation on a closed
    connection raises [sqlite3.ProgrammingError]. *)
Definition db_operation (connect_fails : bool) (t : thread) : db_result nat :=
  match get_db_connection connect_fails t with
  | (None, t1) => DErr "Could not establish database connection" t1
  | (Some c, t1) =>
      if existsb (Nat.eqb c) (open_conns t1) then DOk c t1
      else DErr "Cannot operate on a closed database." t1
  end.

(** A request served by Flask on this thread: the view, then the
    [@app.teardown_appcontext] hook [close_db], which calls
    [close_db_connection()]. *)
Definition serve_health (connect_fails : bool) (t : thread) : string * thread :=
  let '(status, t1) := health_check connect_fails t in
  (status, close_db_connection t1).

(** A worker thread that has not opened a connection yet. *)
Definition fresh_thread : thread := mkThread None [] 0.

End Conn.

(* ------------------------------------------------------------------ *)
(** ** src/app.py: the health and music-file routes *)

Module Routes.
Import App.

(** [x is not None] *)
Definition is_some {A} (o : option A) : bool :=
  match o with Some _ => true | None => false end.

(** [health_check()] (lines 70-93): the database probe of
    [Conn.health_check], then the JSON answer; [ts] is
    [datetime.utcnow().isoformat()]. *)
Definition health_route (G : gens) (connect_fails : bool) (ts : string)
    (t : Conn.thread) : response * Conn.thread :=
  let '(db_status, t1) := Conn.health_check connect_fails t in
  (mkResponse 200
     (VDict [("status", VStr "healthy"); ("timestamp", VStr ts);
             ("database", VStr db_status);
             ("generators", VDict [("poem", VBool (is_some (poem_gen G)));
                                   ("music", VBool (is_some (music_gen G)));
                                   ("animation", VBool (is_some (animation_gen G)))])]),
   t1).

(** [send_file(path, as_attachment=True, download_name=..., mimetype=...)]:
    the answer streams the file; its body here lists what it sends. *)
Definition send_file_response (path stamp : string) : response :=
  mkResponse 200
    (VDict [("file", VPath path); ("as_attachment", VBool true);
            ("download_name", VStr ("fest_music_" ++ stamp ++ ".wav"));
            ("mimetype", VStr "audio/wav")]).

(** [request.get_json()] without an [is_json] check before it: werkzeug
    answers a body that is not declared JSON with [UnsupportedMediaType]
    (415, not a [BadRequest]) before reading it, a body longer than
    [MAX_CONTENT_LENGTH] with [RequestEntityTooLarge] (413, not a
    [BadRequest] either) and one that does not parse with [BadRequest]. *)
Definition get_json_any (req : request) : outcome pyval :=
  if is_json req then
    if N.ltb MAX_CONTENT_LENGTH (content_length req) then Exc request_entity_too_large
    else
      match json_body req with
      | Some d => Ok d
      | None => Exc (BadRequest bad_json_description)
      end
  else Exc (Other "415 Unsupported Media Type: Did not attempt to load JSON data because the request Content-Type was not 'application/json'.").

(** [generate_music_file()] (lines 233-262). [audio_file] is the
    [generate_audio_file] method of [music_gen] (music_generator.py is not
    in the sources), [path_exists] is [os.path.exists] and [stamp] the
    [datetime.now().strftime(...)] text. [InternalServerError] is not a
    [BadRequest], so it reaches the second [except]. *)
Definition generate_music_file (G : gens) (audio_file : string -> outcome string)
    (path_exists : string -> bool) (stamp : string) (req : request) : response :=
  let attempt :=
    match get_json_any req with
    | Exc x => Exc x
    | Ok data =>
        match py_get data "prompt" (VStr "") with
        | Exc x => Exc x
        | Ok p =>
            match py_strip p with
            | Exc x => Exc x
            | Ok prompt =>
                if String.eqb prompt "" then Exc (BadRequest "Prompt is required")
                else
                  match music_gen G with
                  | None => Exc (Other "500 Internal Server Error: Music generator not available")
                  | Some _ =>
                      match audio_file prompt with
                      | Exc x => Exc x
                      | Ok path =>
                          if path_exists path then Ok (send_file_response path stamp)
                          else Exc (Other "500 Internal Server Error: Failed to generate audio file")
                      end
                  end
            end
        end
    end in
  match attempt with
  | Ok r => r
  | Exc (BadRequest d) => mkResponse 400 (VDict [("error", VStr (exn_str (BadRequest d)))])
  | Exc (Other _) => mkResponse 500 (VDict [("error", VStr "Failed to generate music file")])
  end.

End Routes.

(* ------------------------------------------------------------------ *)
(** ** src/models/database.py: [get_db_cursor] and [init_db] *)

Module Db.
Import App Conn.

(** Schema objects of the sqlite file: a table with its columns, or an
    index on one column of a table. *)
Inductive obj_def :=
| TableDef (cols : list string)
| IndexDef (table col : string).

Definition schema := list (string * obj_def).

(** The calls [get_db_cursor] makes: [conn.cursor()], the body of the
    [with] block, [conn.commit()], [conn.rollback()], [cursor.close()]. *)
Inductive call := CCursor | CBody | CCommit | CRollback | CCursorClose.

(** [with get_db_cursor() as cursor: body] (lines 39-54). [body] runs on the
    schema (DDL statements take effect at once: Python's sqlite3 opens no
    transaction for them); [commit_fault] and [rollback_fault] are the
    errors [conn.commit()] and [conn.rollback()] raise, if any. [cursor()] on
    a closed connection raises before the [try]. *)
Definition with_db_cursor {A} (connect_fails : bool)
    (commit_fault rollback_fault : option string)
    (body : schema -> outcome A * schema) (s : schema) (t : thread)
  : outcome A * list call * schema * thread :=
  match get_db_connection connect_fails t with
  | (None, t1) => (Exc (Other "Could not establish database connection"), [], s, t1)
  | (Some c, t1) =>
      if existsb (Nat.eqb c) (open_conns t1) then
        let on_error (x : exn) : outcome A :=
          match rollback_fault with
          | Some m => Exc (Other m)
          | None => Exc x
          end in
        match body s with
        | (Ok a, s1) =>
            match commit_fault with
            | None => (Ok a, [CCursor; CBody; CCommit; CCursorClose], s1, t1)
            | Some m =>
                (on_error (Other m), [CCursor; CBody; CCommit; CRollback; CCursorClose],
                 s1, t1)
            end
        | (Exc x, s1) =>
            (on_error x, [CCursor; CBody; CRollback; CCursorClose], s1, t1)
        end
      else (Exc (Other "Cannot operate on a closed database."), [], s, t1)
  end.

(** The statements of [init_db]. *)
Inductive stmt :=
| CreateTable (name : string) (cols : list string)
| CreateIndex (name table col : string).

(** [cursor.execute(...)] of a [CREATE ... IF NOT EXISTS] statement, in the
    order of sqlite's [sqlite3StartTable] and [sqlite3CreateIndex]: a table
    of that name is kept as it is, an index of that name is an error. For an
    index the table is looked up first; a table of the index's name is an
    error, an index of that name is kept as it is, and only then is the
    indexed column resolved. *)
Definition execute (st : stmt) (s : schema) : outcome schema :=
  match st with
  | CreateTable name cols =>
      match dict_lookup name s with
      | Some (TableDef _) => Ok s
      | Some (IndexDef _ _) => Exc (Other ("there is already an index named " ++ name))
      | None => Ok (s ++ [(name, TableDef cols)])%list
      end
  | CreateIndex name table col =>
      match dict_lookup table s with
      | Some (TableDef cols) =>
          match dict_lookup name s with
          | Some (TableDef _) => Exc (Other ("there is already a table named " ++ name))
          | Some (IndexDef _ _) => Ok s
          | None =>
              if existsb (String.eqb col) cols then Ok (s ++ [(name, IndexDef table col)])%list
              else Exc (Other ("no such column: " ++ col))
          end
      | _ => Exc (Other ("no such table: main." ++ table))
      end
  end.


(** The statements one after the other; the first error stops the run and
    the statements before it stay applied. *)
Fixpoint execute_all (sts : list stmt) (s : schema) : outcome unit * schema :=
  match sts with
  | [] => (Ok tt, s)
  | st :: r =>
      match execute st s with
      | Ok s1 => execute_all r s1
      | Exc x => (Exc x, s)
      end
  end.

Definition content_cols : list string :=
  ["id"; "content_id"; "prompt"; "style"; "poem_data"; "music_data";
   "animation_data"; "user_id"; "session_id"; "created_at"; "updated_at"].

Definition usage_stats_cols : list string :=
  ["id"; "endpoint"; "user_id"; "session_id"; "prompt"; "success";
   "error_message"; "response_time_ms"; "created_at"].

Definition init_statements : list stmt :=
  [CreateTable "content" content_cols;
   CreateTable "usage_stats" usage_stats_cols;
   CreateIndex "idx_content_user_id" "content" "user_id";
   CreateIndex "idx_content_session_id" "content" "session_id";
   CreateIndex "idx_content_created_at" "content" "created_at";
   CreateIndex "idx_usage_stats_endpoint" "usage_stats" "endpoint";
   CreateIndex "idx_usage_stats_created_at" "usage_stats" "created_at"].

(** [init_db()] (lines 56-108): [os.makedirs(dirname, exist_ok=True)] when
    [dirname] (that is, [os.path.dirname(DATABASE_PATH)]) is not empty, then
    the statements in one [get_db_cursor] block; an error is logged and
    raised again. *)
Definition init_db (dirname : string) (makedirs_fails connect_fails : bool)
    (s : schema) (t : thread) : outcome unit * list call * schema * thread :=
  if negb (String.eqb dirname "") && makedirs_fails then
    (Exc (Other "OSError"), [], s, t)
  else with_db_cursor connect_fails None None (execute_all init_statements) s t.

(** [get_db_connection()] gives a connection that is still open. *)
Definition db_usable (connect_fails : bool) (t : thread) : bool :=
  match get_db_connection connect_fails t with
  | (Some c, t1) => existsb (Nat.eqb c) (open_conns t1)
  | (None, _) => false
  end.

(** The objects [init_db] creates on an empty database. *)
Definition init_objects : schema :=
  [("content", TableDef content_cols);
   ("usage_stats", TableDef usage_stats_cols);
   ("idx_content_user_id", IndexDef "content" "user_id");
   ("idx_content_session_id", IndexDef "content" "session_id");
   ("idx_content_created_at", IndexDef "content" "created_at");
   ("idx_usage_stats_endpoint", IndexDef "usage_stats" "endpoint");
   ("idx_usage_stats_created_at", IndexDef "usage_stats" "created_at")].

(** The names a statement looks up: the object it creates and, for an
    index, its table. *)
Definition stmt_names (st : stmt) : list string :=
  match st with CreateTable n _ => [n] | CreateIndex n tb _ => [n; tb] end.

(** An outcome on a schema [e] seen on [s ++ e]. *)
Definition out_prefix (s : schema) (o : outcome schema) : outcome schema :=
  match o with Ok e => Ok (s ++ e)%list | Exc x => Exc x end.

End Db.

(* ------------------------------------------------------------------ *)
(** ** Shapes of the worlds a request goes through *)

Module AppRun.
Import App.

(** A JSON request of [n] bytes whose body is the object [kvs]. *)
Definition json_req (n : N) (kvs : list (string * pyval)) : request :=
  mkRequest true n (Some (VDict kvs)).

(** The world after lines 104-116 on a JSON object with a str prompt. *)
Definition validated_world E kvs s w : world :=
  mkWorld (contents w) (usage w) (clock w) (S (uuids w)) (log_calls w)
    (trace w) (Py.strip s) (dict_get kvs "user_id" (VStr "anonymous"))
    (dict_get kvs "session_id" (VStr (uuid_at E (uuids w)))).

Definition success_row (prompt : string) (user_id session_id : pyval) (ms : Z)
  : usage_row :=
  mkUsageRow "/api/generate" user_id session_id prompt true None ms.

Definition failure_row (w : world) (msg : string) (ms : Z) : usage_row :=
  mkUsageRow "/api/generate" (l_user_id w) (l_session_id w) (l_prompt w)
    false (Some msg) ms.

(** A world after [ticks] clock readings and one [log_usage] call that
    appended [rows]. *)
Definition logged (w : world) (ticks : nat) (rows : list usage_row) : world :=
  mkWorld (contents w) (usage w ++ rows) (ticks + clock w) (uuids w)
    (S (log_calls w)) (trace w) (l_prompt w) (l_user_id w) (l_session_id w).

(** The content row [save_content] would insert. *)
Definition saved_world (w : world) (row : content_row) : world :=
  mkWorld (contents w ++ [row]) (usage w) (clock w) (S (uuids w))
    (log_calls w) (trace w) (l_prompt w) (l_user_id w) (l_session_id w).

Definition bumped_world (w : world) : world :=
  mkWorld (contents w) (usage w) (clock w) (S (uuids w))
    (log_calls w) (trace w) (l_prompt w) (l_user_id w) (l_session_id w).

Definition prefix_world (E : env) (w : world) : world :=
  mkWorld (contents w) (usage w) (S (clock w)) (S (uuids w)) (log_calls w)
    (trace w) "" (VStr "anonymous") (VStr (uuid_at E (uuids w))).

Definition handler (E : env) (start : Z) (x : exn) : M response :=
  if is_bad_request x then bad_request_path E start x
  else internal_error_path E start.


(** The requests lines 104-116 reject with [BadRequest]: not JSON, a body
    of at most [MAX_CONTENT_LENGTH] bytes that does not decode, or a str
    prompt (default ['']) whose stripped form is empty or longer than 500
    characters. A longer JSON body raises [RequestEntityTooLarge]. *)
Definition bad_request_input (req : request) : bool :=
  if is_json req then
    if N.ltb MAX_CONTENT_LENGTH (content_length req) then false else
    match json_body req with
    | None => true
    | Some (VDict kvs) =>
        match dict_get kvs "prompt" (VStr "") with
        | VStr s => String.eqb (Py.strip s) "" ||
                    Nat.ltb 500 (String.length (Py.strip s))
        | _ => false
        end
    | Some _ => false
    end
  else true.

Definition flask_500 : response :=
  mkResponse 500 (VDict [("status", VStr "error");
                         ("error", VStr "Internal server error")]).

Definition bad_request_response (x : exn) (ts : string) : response :=
  mkResponse 400 (VDict [("status", VStr "error"); ("error", VStr (exn_str x));
                         ("timestamp", VStr ts)]).

Definition internal_response (ts : string) : response :=
  mkResponse 500
    (VDict [("status", VStr "error");
            ("error", VStr "Internal server error. Please try again.");
            ("timestamp", VStr ts)]).

(** Sample inputs. *)
Definition sample_env : env :=
  mkEnv (fun n => Z.of_nat n * 10)%Z (fun _ => "2026-01-01T00:00:00")
    (fun n => "uuid-" ++ Animation.nat_str n) None (fun _ => None) None.

Definition empty_world : world := mkWorld [] [] 0 0 0 [] "" VNone VNone.

Definition music_stub : producer_fn :=
  fun _ _ => Ok (VDict [("filename", VStr "music.wav")]).

Definition animation_stub : producer_fn :=
  fun _ _ => Ok (VDict [("frames", VInt 3)]).

(** All three generators constructed. *)
Definition working_gens : gens :=
  mkGens (Some poem_instance) (Some music_stub) (Some animation_stub).
Definition sample_kvs : list (string * pyval) := [("prompt", VStr "hi")].

Definition blank_kvs : list (string * pyval) := [("prompt", VStr "   ")].
Definition empty_kvs : list (string * pyval) := [("prompt", VStr "")].


(** Every usage insert fails. *)
Definition locked_env : env :=
  mkEnv (time_at sample_env) (iso_at sample_env) (uuid_at sample_env) None
    (fun _ => Some "database is locked") None.
(** The [prompt] field of the [content] record of a GET answer. *)
Definition content_prompt (g : response) : option pyval :=
  match body_field g "content" with
  | Some (VDict c) => dict_lookup "prompt" c
  | _ => None
  end.
(** A request body whose prompt has surrounding spaces. *)
Definition spaced_kvs : list (string * pyval) := [("prompt", VStr " hi ")].

(** A music generator whose result holds a [Path], which [json.dumps]
    cannot serialise. *)
Definition path_music_stub : producer_fn :=
  fun _ _ => Ok (VDict [("file", VPath "music.wav")]).

Definition path_gens : gens :=
  mkGens (Some poem_instance) (Some path_music_stub) (Some animation_stub).

End AppRun.

(* ================================================================== *)
(** * Properties *)

Module Facts.
Import App AppRun.

(** ** The monad *)

Lemma bind_ok {A B} (m : M A) (f : A -> M B) w a w' :
  m w = (Ok a, w') -> bind m f w = f a w'.
Proof. intros H. unfold bind. rewrite H. reflexivity. Qed.

Lemma bind_exc {A B} (m : M A) (f : A -> M B) w x w' :
  m w = (Exc x, w') -> bind m f w = (Exc x, w').
Proof. intros H. unfold bind. rewrite H. reflexivity. Qed.

Lemma try_ok {A} (m : M A) h w a w' :
  m w = (Ok a, w') -> try_ m h w = (Ok a, w').
Proof. intros H. unfold try_. rewrite H. reflexivity. Qed.

Lemma try_exc {A} (m : M A) h w x w' :
  m w = (Exc x, w') -> try_ m h w = h x w'.
Proof. intros H. unfold try_. rewrite H. reflexivity. Qed.

(** ** Dicts *)

Lemma dict_lookup_set_same {V} k (v : V) d :
  dict_lookup k (dict_set k v d) = Some v.
Proof.
  induction d as [|[k' v'] d IH]; cbn.
  - rewrite String.eqb_refl. reflexivity.
  - destruct (String.eqb k k') eqn:E; cbn.
    + rewrite E. reflexivity.
    + rewrite E. exact IH.
Qed.

Lemma dict_lookup_set_other {V} k k' (v : V) d :
  k <> k' -> dict_lookup k (dict_set k' v d) = dict_lookup k d.
Proof.
  intros Hne. induction d as [|[k0 v0] d IH]; cbn.
  - apply String.eqb_neq in Hne. rewrite Hne. reflexivity.
  - destruct (String.eqb k' k0) eqn:E; cbn.
    + apply String.eqb_eq in E. subst k0.
      apply String.eqb_neq in Hne. rewrite Hne. reflexivity.
    + destruct (String.eqb k k0); [reflexivity | exact IH].
Qed.


Lemma dict_lookup_set_opt_other {V} k k' (o : option V) d :
  k <> k' -> dict_lookup k (set_opt k' o d) = dict_lookup k d.
Proof. intros H. destruct o; cbn; [apply dict_lookup_set_other; exact H | reflexivity]. Qed.



(** ** The producer blocks *)

Lemma producer_block_run k key gen sk d u options prompt results errors w :
  producer_block k key gen sk d u options prompt (results, errors) w =
  (Ok (set_opt key (block_result gen sk d options prompt) results,
       set_opt key (block_error gen sk d u options prompt) errors),
   if block_invokes gen sk d options then add_trace w [Invoke k] else w).
Proof.
  unfold producer_block, try_, bind, lift, emit, ret, block_result,
    block_error, block_invokes, add_trace.
  destruct gen as [f|]; [|reflexivity].
  destruct (py_get options sk (VStr d)) as [style|x]; [|reflexivity].
  destruct (f prompt style) as [v|x]; reflexivity.
Qed.

Lemma add_trace_nil w : add_trace w [] = w.
Proof. destruct w; unfold add_trace; cbn. rewrite app_nil_r. reflexivity. Qed.

Lemma add_trace_app w a b : add_trace (add_trace w a) b = add_trace w (a ++ b).
Proof. destruct w; unfold add_trace; cbn. rewrite app_assoc. reflexivity. Qed.

Lemma if_add_trace (b : bool) w e :
  (if b then add_trace w [e] else w) = add_trace w (if b then [e] else []).
Proof. destruct b; [reflexivity | symmetry; apply add_trace_nil]. Qed.

Lemma run_producers_run G options prompt w :
  run_producers G options prompt w =
  (Ok (producers_results G options prompt, producers_errors G options prompt),
   add_trace w (producers_events G options)).
Proof.
  unfold run_producers.
  erewrite bind_ok; [|apply producer_block_run].
  erewrite bind_ok; [|apply producer_block_run].
  rewrite producer_block_run.
  rewrite !if_add_trace, !add_trace_app.
  reflexivity.
Qed.

(** ** Validation *)

Lemma validate_str E n kvs s w :
  (n <= MAX_CONTENT_LENGTH)%N ->
  dict_get kvs "prompt" (VStr "") = VStr s ->
  validate_request E (json_req n kvs) w =
  ((if String.eqb (Py.strip s) "" then
      Exc (BadRequest "Prompt is required and cannot be empty")
    else if Nat.ltb 500 (String.length (Py.strip s)) then
      Exc (BadRequest "Prompt too long. Maximum 500 characters allowed")
    else Ok (VDict kvs, Py.strip s, dict_get kvs "user_id" (VStr "anonymous"),
             dict_get kvs "session_id" (VStr (uuid_at E (uuids w))))),
   validated_world E kvs s w).
Proof.
  intros Hn Hp. apply N.ltb_ge in Hn. unfold dict_get in Hp.
  destruct (dict_lookup "prompt" kvs) as [v|] eqn:Hq;
    [subst v | injection Hp as <-].
  all: unfold validate_request, json_req, validated_world, get_json, bind, ret,
    raise, lift, py_get, py_strip, set_prompt, set_user_id, set_session_id,
    uuid4, dict_get; cbn -[Nat.ltb String.eqb N.ltb MAX_CONTENT_LENGTH]; rewrite Hn;
    cbn -[Nat.ltb String.eqb]; rewrite Hq;
    cbn -[Nat.ltb String.eqb].
  all: destruct (dict_lookup "user_id" kvs); destruct (dict_lookup "session_id" kvs);
    match goal with |- context [String.eqb ?a ""] => destruct (String.eqb a "") end;
    try reflexivity;
    match goal with |- context [Nat.ltb 500 ?n] => destruct (Nat.ltb 500 n) end;
    reflexivity.
Qed.

(** ** The steps after validation *)

Lemma finish_run E prompt results errors user_id session_id start w :
  finish E prompt results errors user_id session_id start w =
  match log_fault E (log_calls w) with
  | Some m => (Exc (Other m), logged w 2 [])
  | None =>
      let resp := success_body prompt results errors (iso_at E (clock w))
                    session_id in
      ((if jsonable (VDict resp) then Ok (mkResponse 200 (VDict resp))
        else Exc (Other "Object of type PosixPath is not JSON serializable")),
       logged w 2 [success_row prompt user_id session_id
                     (time_at E (S (clock w)) - start)])
  end.
Proof.
  unfold finish, bind, ret, lift, utcnow_iso, time_time, log_usage, jsonify,
    logged, success_row; cbn -[success_body jsonable].
  destruct (log_fault E (log_calls w)); [rewrite app_nil_r; reflexivity|].
  destruct (jsonable _); reflexivity.
Qed.

Lemma internal_error_path_run E start w :
  internal_error_path E start w =
  match log_fault E (log_calls w) with
  | Some m => (Exc (Other m), logged w 1 [])
  | None =>
      (Ok (mkResponse 500
             (VDict [("status", VStr "error");
                     ("error", VStr "Internal server error. Please try again.");
                     ("timestamp", VStr (iso_at E (S (clock w))))])),
       logged w 2 [failure_row w "Internal server error"
                     (time_at E (clock w) - start)])
  end.
Proof.
  unfold internal_error_path, bind, ret, lift, utcnow_iso, time_time,
    log_usage, jsonify, content_model_new, get_world, logged, failure_row;
    cbn.
  destruct (log_fault E (log_calls w)); rewrite ?app_nil_r; reflexivity.
Qed.

Lemma bad_request_path_run E start x w :
  bad_request_path E start x w =
  match log_fault E (log_calls w) with
  | Some m => (Exc (Other m), logged w 1 [])
  | None =>
      (Ok (mkResponse 400
             (VDict [("status", VStr "error"); ("error", VStr (exn_str x));
                     ("timestamp", VStr (iso_at E (S (clock w))))])),
       logged w 2 [failure_row w (exn_str x) (time_at E (clock w) - start)])
  end.
Proof.
  unfold bad_request_path, bind, ret, lift, utcnow_iso, time_time,
    log_usage, jsonify, content_model_new, get_world, logged, failure_row;
    cbn.
  destruct (log_fault E (log_calls w)); rewrite ?app_nil_r; reflexivity.
Qed.

Lemma save_step_run E prompt results user_id session_id w :
  save_step E prompt results user_id session_id w =
  match save_fault E with
  | Some _ => (Ok results, w)
  | None =>
      if jsonable (results_get results "poem") &&
         jsonable (results_get results "music") &&
         jsonable (results_get results "animation") then
        let cid := uuid_at E (uuids w) in
        if existsb (fun r => String.eqb (c_content_id r) cid) (contents w)
        then (Ok results, bumped_world w)
        else (Ok (dict_set "content_id" (VStr cid) results),
              saved_world w (mkContentRow cid prompt
                               (results_get results "poem")
                               (results_get results "music")
                               (results_get results "animation")
                               user_id session_id))
      else (Ok results, w)
  end.
Proof.
  unfold save_step, save_content, try_, bind, ret, saved_world, bumped_world.
  destruct (save_fault E); [reflexivity|].
  destruct (_ && _ && _); [|reflexivity].
  destruct (existsb _ _); reflexivity.
Qed.

Lemma generate_content_prefix G E req w :
  generate_content G E req w =
  try_ (generate_try G E req (time_at E (clock w))) (handler E (time_at E (clock w)))
    (prefix_world E w).
Proof. reflexivity. Qed.

(** A POST whose stripped prompt is valid: validation, the producers, the
    save, then [finish] under the [except] clauses and Flask. *)
Lemma post_generate_valid G E n kvs s w :
  (n <= MAX_CONTENT_LENGTH)%N ->
  dict_lookup "prompt" kvs = Some (VStr s) ->
  Py.strip s <> "" -> String.length (Py.strip s) <= 500 ->
  let start := time_at E (clock w) in
  let w1 := validated_world E kvs s (prefix_world E w) in
  let p := Py.strip s in
  let uid := dict_get kvs "user_id" (VStr "anonymous") in
  let sid := dict_get kvs "session_id" (VStr (uuid_at E (S (uuids w)))) in
  let opts := request_options kvs in
  let w2 := add_trace w1 (producers_events G opts) in
  post_generate G E (json_req n kvs) w =
  match save_step E p (producers_results G opts p) uid sid w2 with
  | (Ok res, w3) =>
      flask_serve (try_ (finish E p res (producers_errors G opts p) uid sid start)
                        (handler E start)) w3
  | (Exc x, w3) => flask_serve (handler E start x) w3
  end.
Proof.
  intros Hn Hp Hne Hlen start w1 p uid sid opts w2.
  unfold post_generate, flask_serve.
  unfold try_ at 1.
  rewrite generate_content_prefix.
  assert (Hv : validate_request E (json_req n kvs) (prefix_world E w) = _)
    by (apply validate_str; [exact Hn | unfold dict_get; rewrite Hp; reflexivity]).
  apply String.eqb_neq in Hne. rewrite Hne in Hv.
  apply Nat.ltb_ge in Hlen. rewrite Hlen in Hv.
  unfold try_ at 1. unfold generate_try.
  erewrite bind_ok; [|exact Hv].
  unfold generate_body.
  assert (Ho : py_get (VDict kvs) "options" (VDict []) = Ok (request_options kvs))
    by (unfold py_get, request_options, dict_get;
        destruct (dict_lookup "options" kvs); reflexivity).
  erewrite bind_ok; [|unfold lift; rewrite Ho; reflexivity].
  erewrite bind_ok; [|apply run_producers_run].
  change (uuids (prefix_world E w)) with (S (uuids w)).
  fold start w1 p uid sid opts w2.
  unfold content_model_new. erewrite bind_ok; [|reflexivity].
  unfold bind at 1.
  destruct (save_step E p (producers_results G opts p) uid sid w2) as [[res|x] w3];
    reflexivity.
Qed.

(** [save_step] never raises and touches only the content table and the
    uuid counter. *)
Lemma save_step_ok E prompt results user_id session_id w :
  exists res w3,
    save_step E prompt results user_id session_id w = (Ok res, w3) /\
    (res = results \/ exists cid, res = dict_set "content_id" (VStr cid) results) /\
    trace w3 = trace w /\ clock w3 = clock w /\ log_calls w3 = log_calls w /\
    usage w3 = usage w /\ l_prompt w3 = l_prompt w /\
    l_user_id w3 = l_user_id w /\ l_session_id w3 = l_session_id w.
Proof.
  rewrite save_step_run.
  destruct (save_fault E) as [m|].
  { exists results, w. repeat split. left. reflexivity. }
  destruct (jsonable (results_get results "poem") &&
            jsonable (results_get results "music") &&
            jsonable (results_get results "animation")).
  2: { exists results, w. repeat split. left. reflexivity. }
  cbv zeta.
  destruct (existsb (fun r => String.eqb (c_content_id r) (uuid_at E (uuids w)))
              (contents w)).
  - exists results, (bumped_world w). repeat split. left. reflexivity.
  - eexists _, _. split; [reflexivity|]. split; [right; eexists; reflexivity|].
    repeat split.
Qed.

(** What Flask answers after [finish]: the success response, or a 500. *)
Lemma tail_shape E p res errs uid sid start w3 r w' :
  flask_serve (try_ (finish E p res errs uid sid start) (handler E start)) w3
  = (Ok r, w') ->
  (r = mkResponse 200 (VDict (success_body p res errs (iso_at E (clock w3)) sid))
   \/ code r = 500%Z) /\ trace w' = trace w3.
Proof.
  unfold flask_serve, try_; cbv beta. rewrite finish_run.
  destruct (log_fault E (log_calls w3)) as [m|].
  - unfold handler; cbn [is_bad_request]. rewrite internal_error_path_run.
    destruct (log_fault E (log_calls (logged w3 2 [])));
      intros H; cbv beta iota zeta in H; injection H as <- <-; split; auto.
  - cbv zeta. destruct (jsonable (VDict (success_body p res errs (iso_at E (clock w3)) sid))).
    + intros H; cbv beta iota zeta in H; injection H as <- <-; split; auto.
    + unfold handler; cbn [is_bad_request]. rewrite internal_error_path_run.
      match goal with |- context [log_fault E ?n] => destruct (log_fault E n) end;
        intros H; cbv beta iota zeta in H; injection H as <- <-; split; auto.
Qed.

Lemma success_body_fields p res errs ts sid :
  dict_lookup "status" (success_body p res errs ts sid) =
    Some (VStr (match errs with [] => "success" | _ => "partial_success" end)) /\
  dict_lookup "errors" (success_body p res errs ts sid) =
    match errs with [] => None | _ => Some (errors_val errs) end /\
  dict_lookup "results" (success_body p res errs ts sid) = Some (VDict res) /\
  dict_lookup "prompt" (success_body p res errs ts sid) = Some (VStr p).
Proof. unfold success_body. destruct errs; repeat split. Qed.



(** Rewrites a POST with a valid stripped prompt into its tail, after the
    producers and the (never failing) save. *)
Ltac run_valid H Hn Hp Hne Hlen :=
  let HV := fresh "HV" in
  match type of H with
  | post_generate ?G ?E (json_req ?n ?kvs) ?w = _ =>
      pose proof (post_generate_valid G E n kvs _ w Hn Hp Hne Hlen) as HV
  end;
  cbv zeta in HV; rewrite HV in H; clear HV;
  match type of H with
  | context [save_step ?a ?b ?c ?d ?e ?f] =>
      let res := fresh "res" in let w3 := fresh "w3" in
      let Hs := fresh "Hs" in
      destruct (save_step_ok a b c d e f)
        as (res & w3 & Hs & ?Hres & ?Ht & ?Hc & ?Hl & ?Hu & ?Hpr & ?Hui & ?Hsi);
      rewrite Hs in H; cbv beta iota in H
  end.


Lemma validate_nonstr E n kvs v w :
  (n <= MAX_CONTENT_LENGTH)%N ->
  dict_get kvs "prompt" (VStr "") = v -> (forall s, v <> VStr s) ->
  validate_request E (json_req n kvs) w = (Exc (attribute_error v "strip"), w).
Proof.
  intros Hn Hp Hv. apply N.ltb_ge in Hn. unfold dict_get in Hp.
  unfold validate_request, json_req, get_json, bind, ret, raise, lift, py_get,
    py_strip; cbn -[N.ltb MAX_CONTENT_LENGTH]. rewrite Hn.
  destruct (dict_lookup "prompt" kvs) as [v'|]; subst v.
  - destruct v'; try reflexivity. exfalso. eapply Hv. reflexivity.
  - exfalso. eapply Hv. reflexivity.
Qed.

(** A JSON body longer than [MAX_CONTENT_LENGTH]: [get_json()] raises
    [RequestEntityTooLarge] before anything else is read or set. *)
Lemma validate_too_large E n b w :
  N.ltb MAX_CONTENT_LENGTH n = true ->
  validate_request E (mkRequest true n b) w = (Exc request_entity_too_large, w).
Proof.
  intros Hn. unfold validate_request, get_json, bind, ret, raise;
    cbn -[N.ltb MAX_CONTENT_LENGTH]. rewrite Hn. reflexivity.
Qed.

Definition frame_kept (w1 w : world) : Prop :=
  log_calls w1 = log_calls w /\ usage w1 = usage w /\ contents w1 = contents w /\
  clock w1 = clock w /\ trace w1 = trace w.

(** Lines 104-116 on any request: a rejection raises [BadRequest] exactly
    for [bad_request_input]; acceptance means a JSON object with a str prompt
    whose stripped form has 1 to 500 characters. *)
Lemma validate_result E req w :
  frame_kept (snd (validate_request E req w)) w /\
  match fst (validate_request E req w) with
  | Exc x => is_bad_request x = bad_request_input req
  | Ok _ => bad_request_input req = false /\
      exists n kvs s, req = json_req n kvs /\ (n <= MAX_CONTENT_LENGTH)%N /\
        dict_lookup "prompt" kvs = Some (VStr s) /\
        Py.strip s <> "" /\ String.length (Py.strip s) <= 500
  end.
Proof.
  destruct req as [[|] n b]; [|cbn; repeat split].
  destruct (N.ltb MAX_CONTENT_LENGTH n) eqn:Hn.
  { rewrite (validate_too_large E n b w Hn). unfold bad_request_input.
    cbn -[N.ltb MAX_CONTENT_LENGTH]. rewrite Hn. repeat split. }
  destruct b as [d|].
  2: { unfold validate_request, get_json, bad_request_input;
       cbn -[N.ltb MAX_CONTENT_LENGTH]; rewrite Hn; cbn; repeat split. }
  destruct d; try (unfold validate_request, get_json, bad_request_input;
                   cbn -[N.ltb MAX_CONTENT_LENGTH]; rewrite Hn; cbn; repeat split; fail).
  change (mkRequest true n (Some (VDict kvs))) with (json_req n kvs).
  pose proof Hn as Hn'. apply N.ltb_ge in Hn'.
  destruct (dict_get kvs "prompt" (VStr "")) eqn:Hp;
    try (rewrite (validate_nonstr E n kvs _ w Hn' Hp) by discriminate;
         unfold bad_request_input; cbn -[N.ltb MAX_CONTENT_LENGTH]; rewrite Hn, Hp;
         repeat split; fail).
  rewrite (validate_str E n kvs s w Hn' Hp).
  unfold bad_request_input, json_req; cbn [is_json content_length json_body fst snd].
  rewrite Hn, Hp.
  split; [repeat split|].
  destruct (String.eqb (Py.strip s) "") eqn:E1; [reflexivity|].
  destruct (Nat.ltb 500 (String.length (Py.strip s))) eqn:E2; [reflexivity|].
  split; [reflexivity|].
  exists n, kvs, s. split; [reflexivity|]. split; [exact Hn'|].
  split.
  - unfold dict_get in Hp. destruct (dict_lookup "prompt" kvs) as [v|] eqn:Hq.
    + subst v. reflexivity.
    + injection Hp as <-. vm_compute in E1. discriminate.
  - split; [apply String.eqb_neq; exact E1 | apply Nat.ltb_ge; exact E2].
Qed.

Lemma post_generate_rejected G E req w x w1 :
  validate_request E req (prefix_world E w) = (Exc x, w1) ->
  post_generate G E req w = flask_serve (handler E (time_at E (clock w)) x) w1.
Proof.
  intros Hv. unfold post_generate, flask_serve. unfold try_ at 1.
  rewrite generate_content_prefix. unfold try_ at 1, generate_try.
  erewrite bind_exc; [|exact Hv]. reflexivity.
Qed.

Lemma serve_handler_run E start x w1 :
  flask_serve (handler E start x) w1 =
  match log_fault E (log_calls w1) with
  | Some _ => (Ok flask_500, logged w1 1 [])
  | None =>
      (Ok (if is_bad_request x then bad_request_response x (iso_at E (S (clock w1)))
           else internal_response (iso_at E (S (clock w1)))),
       logged w1 2 [failure_row w1 (if is_bad_request x then exn_str x
                                    else "Internal server error")
                      (time_at E (clock w1) - start)])
  end.
Proof.
  unfold flask_serve, handler, try_.
  destruct (is_bad_request x);
    [rewrite bad_request_path_run | rewrite internal_error_path_run];
    destruct (log_fault E (log_calls w1)); reflexivity.
Qed.

(** ** Serialisation *)

Lemma jsonable_dict kvs :
  jsonable (VDict kvs) = forallb (fun '(_, v) => jsonable v) kvs.
Proof.
  induction kvs as [|[k v] kvs IH]; [reflexivity|].
  exact (f_equal (andb (jsonable v)) IH).
Qed.

Lemma jsonable_dict_set k v kvs :
  jsonable v = true -> jsonable (VDict kvs) = true ->
  jsonable (VDict (dict_set k v kvs)) = true.
Proof.
  rewrite !jsonable_dict. intros Hv.
  induction kvs as [|[k' v'] kvs IH]; cbn; intros H.
  - rewrite Hv. reflexivity.
  - apply andb_true_iff in H as [H1 H2].
    destruct (String.eqb k k'); cbn; rewrite ?Hv, ?H1, ?H2; cbn.
    + reflexivity.
    + apply IH. exact H2.
Qed.

Lemma jsonable_dict_get kvs k d :
  jsonable (VDict kvs) = true -> jsonable d = true ->
  jsonable (dict_get kvs k d) = true.
Proof.
  rewrite jsonable_dict. unfold dict_get. intros H Hd.
  induction kvs as [|[k' v'] kvs IH]; cbn in *; [exact Hd|].
  apply andb_true_iff in H as [H1 H2].
  destruct (String.eqb k k'); [exact H1 | exact (IH H2)].
Qed.

Lemma jsonable_errors_val errs : jsonable (errors_val errs) = true.
Proof.
  unfold errors_val. rewrite jsonable_dict.
  induction errs as [|[k m] errs IH]; [reflexivity | exact IH].
Qed.

Lemma jsonable_success_body p res errs ts sid :
  jsonable (VDict res) = true -> jsonable sid = true ->
  jsonable (VDict (success_body p res errs ts sid)) = true.
Proof.
  intros Hr Hs. unfold success_body. cbv zeta.
  assert (H0 : jsonable (VDict [("status", VStr "success"); ("prompt", VStr p);
                   ("results", VDict res); ("timestamp", VStr ts);
                   ("session_id", sid)]) = true).
  { rewrite jsonable_dict. cbn [forallb]. rewrite Hr, Hs. reflexivity. }
  destruct errs as [|e errs]; [exact H0|].
  apply jsonable_dict_set; [reflexivity|].
  apply jsonable_dict_set; [apply jsonable_errors_val | exact H0].
Qed.



(** The module-level [try] of lines 40-47 always ends in the [except]
    branch: [AnimationGenerator()] lacks its [output_dir] argument. *)
Lemma init_generators_none music_new animation_generate :
  init_generators music_new animation_generate = mkGens None None None.
Proof. destruct music_new; reflexivity. Qed.








(** The whole success path of a valid request with a working usage insert
    and serialisable values. *)
Lemma post_generate_success G E n kvs s w r w' :
  (n <= MAX_CONTENT_LENGTH)%N ->
  dict_lookup "prompt" kvs = Some (VStr s) ->
  Py.strip s <> "" -> String.length (Py.strip s) <= 500 ->
  log_fault E (log_calls w) = None ->
  jsonable (VDict kvs) = true ->
  jsonable (VDict (producers_results G (request_options kvs) (Py.strip s))) = true ->
  post_generate G E (json_req n kvs) w = (Ok r, w') ->
  let p := Py.strip s in
  let uid := dict_get kvs "user_id" (VStr "anonymous") in
  let sid := dict_get kvs "session_id" (VStr (uuid_at E (S (uuids w)))) in
  let opts := request_options kvs in
  exists res w3,
    save_step E p (producers_results G opts p) uid sid
      (add_trace (validated_world E kvs s (prefix_world E w))
         (producers_events G opts)) = (Ok res, w3) /\
    (res = producers_results G opts p \/
     exists cid, res = dict_set "content_id" (VStr cid) (producers_results G opts p)) /\
    clock w3 = S (clock w) /\ usage w3 = usage w /\
    r = mkResponse 200 (VDict (success_body p res (producers_errors G opts p)
                                 (iso_at E (clock w3)) sid)) /\
    w' = logged w3 2 [success_row p uid sid
                        (time_at E (S (clock w3)) - time_at E (clock w))].
Proof.
  intros Hn Hp Hne Hlen Hlog Hj Hjr H p uid sid opts.
  run_valid H Hn Hp Hne Hlen.
  unfold flask_serve, try_ in H; cbv beta in H. rewrite finish_run in H.
  rewrite Hl in H. cbn [log_calls add_trace validated_world prefix_world] in H.
  rewrite Hlog in H. cbv zeta in H.
  assert (Hj2 : jsonable (VDict res) = true).
  { destruct Hres as [-> | [cid ->]]; [exact Hjr|].
    apply jsonable_dict_set; [reflexivity | exact Hjr]. }
  rewrite (jsonable_success_body _ _ _ _ _ Hj2
             (jsonable_dict_get kvs "session_id" (VStr (uuid_at E (S (uuids w))))
                Hj eq_refl)) in H.
  injection H as <- <-.
  exists res, w3. split; [exact Hs|]. split; [exact Hres|].
  split; [rewrite Hc; reflexivity|]. split; [rewrite Hu; reflexivity|].
  split; reflexivity.
Qed.

(** C4 (amended). When the first usage insert of the request works and, for
    a JSON object with a str prompt, the request and the producers' results
    are serialisable, every POST appends exactly one usage row. Its time is
    the clock difference from the start of the request to a later reading;
    on 200 it has [success=True], on 400 [success=False] with the message
    of the response, on 500 [success=False] with ['Internal server error']. *)
Theorem C4_one_usage_row G E req w r w' :
  log_fault E (log_calls w) = None ->
  (forall n kvs s, req = json_req n kvs -> dict_lookup "prompt" kvs = Some (VStr s) ->
     jsonable (VDict kvs) = true /\
     jsonable (VDict (producers_results G (request_options kvs) (Py.strip s))) = true) ->
  post_generate G E req w = (Ok r, w') ->
  exists row k,
    usage w' = (usage w ++ [row])%list /\ clock w < k /\
    u_response_time_ms row = (time_at E k - time_at E (clock w))%Z /\
    u_endpoint row = "/api/generate" /\
    ((code r = 200%Z /\ u_success row = true /\ u_error_message row = None) \/
     (code r = 400%Z /\ u_success row = false /\
      exists d, u_error_message row = Some (exn_str (BadRequest d)) /\
                body_field r "error" = Some (VStr (exn_str (BadRequest d)))) \/
     (code r = 500%Z /\ u_success row = false /\
      u_error_message row = Some "Internal server error")).
Proof.
  intros Hlog Hjs H.
  destruct (validate_result E req (prefix_world E w)) as [Hk Hm].
  destruct (validate_request E req (prefix_world E w)) as [o w1] eqn:Hv.
  cbn [fst snd] in Hk, Hm.
  destruct o as [v|x].
  - destruct Hm as [_ (n & kvs & s & -> & Hn & Hp & Hne & Hlen)].
    destruct (Hjs n kvs s eq_refl Hp) as [Hj Hjr].
    destruct (post_generate_success G E n kvs s w r w' Hn Hp Hne Hlen Hlog Hj Hjr H)
      as (res & w3 & _ & _ & Hc & Hu & -> & ->).
    eexists. exists (S (clock w3)).
    split; [unfold logged; cbn [usage]; rewrite Hu; reflexivity|].
    split; [rewrite Hc; lia|].
    split; [reflexivity|]. split; [reflexivity|].
    left. repeat split.
  - rewrite (post_generate_rejected G E req w x w1 Hv) in H.
    rewrite serve_handler_run in H.
    destruct Hk as (Hk1 & Hk2 & _ & Hk4 & _). rewrite Hk1 in H.
    cbn [log_calls prefix_world] in H. rewrite Hlog in H.
    injection H as <- <-.
    eexists. exists (clock w1).
    split; [unfold logged; cbn [usage]; rewrite Hk2; reflexivity|].
    split; [rewrite Hk4; cbn; lia|].
    split; [reflexivity|]. split; [reflexivity|].
    right. destruct x as [d|m]; [left | right]; cbn; repeat split.
    exists d. split; reflexivity.
Qed.

(** C4: when every usage insert fails, the empty prompt is answered with 500
    and no usage row is written. *)
Lemma C4_no_row_when_insert_fails :
  match post_generate working_gens locked_env (json_req 64 empty_kvs) empty_world with
  | (Ok r, w') => code r = 500%Z /\ usage w' = []
  | (Exc _, _) => False
  end.
Proof. vm_compute. split; reflexivity. Qed.

Lemma C4_witness :
  match post_generate working_gens sample_env (json_req 64 sample_kvs) empty_world with
  | (Ok r, w') => exists row, usage w' = [row]
  | (Exc _, _) => False
  end.
Proof.
  destruct (post_generate working_gens sample_env (json_req 64 sample_kvs) empty_world)
    as [[r|x] w'] eqn:H.
  - refine (match C4_one_usage_row working_gens sample_env (json_req 64 sample_kvs)
                    empty_world r w' eq_refl _ H with
            | ex_intro _ row (ex_intro _ _ (conj Hu _)) => ex_intro _ row Hu
            end).
    intros n kvs s Heq Hp. unfold json_req in Heq. injection Heq as <- <-.
    cbn in Hp. injection Hp as <-. vm_compute. split; reflexivity.
  - vm_compute in H. discriminate H.
Defined.

End Facts.

(* ------------------------------------------------------------------ *)
(** ** Facts about [AnimationGenerator.generate] *)

Module AnimFacts.
Import App Animation Facts.

Lemma dict_lookup_remove_same {V} k (d : list (string * V)) :
  dict_lookup k (dict_remove k d) = None.
Proof.
  induction d as [|[k' v] d IH]; [reflexivity|]. unfold dict_remove in *. cbn [filter fst].
  destruct (String.eqb k k') eqn:E; cbn [negb]; [exact IH|]. cbn. rewrite E. exact IH.
Qed.

Lemma dict_lookup_remove_other {V} k k' (d : list (string * V)) :
  k <> k' -> dict_lookup k (dict_remove k' d) = dict_lookup k d.
Proof.
  intros Hk. induction d as [|[k0 v] d IH]; [reflexivity|]. unfold dict_remove in *.
  cbn [filter fst]. destruct (String.eqb k' k0) eqn:E; cbn [negb].
  - apply String.eqb_eq in E. subst k0. cbn. apply String.eqb_neq in Hk. rewrite Hk. exact IH.
  - cbn. destruct (String.eqb k k0); [reflexivity | exact IH].
Qed.

Lemma dict_lookup_set_some {V} k k' (v : V) d :
  dict_lookup k d <> None -> dict_lookup k (dict_set k' v d) <> None.
Proof.
  intros H. destruct (String.eqb_spec k k') as [->|Hne].
  - rewrite dict_lookup_set_same. discriminate.
  - rewrite dict_lookup_set_other by exact Hne. exact H.
Qed.

Lemma render_cons C uid prompt texts pal rest i d :
  (forall f, write_at C f = WriteOk) ->
  render_frames C uid prompt texts (pal :: rest) i d =
  fbind (render_frames C uid prompt texts rest (S i))
    (fun ps => fret (join_path C (frame_name uid i) :: ps))
    (dict_set (resolve C (join_path C (frame_name uid i)))
       (FImage (make_frame_image C
                  (str_or (nth (i mod length texts) texts "") prompt) pal
                  (720, 720)%Z)) d).
Proof. intros Hw. cbn [render_frames]. unfold fbind at 1, save_image. rewrite Hw. reflexivity. Qed.

Lemma render3 C uid prompt poem_text d :
  (forall f, write_at C f = WriteOk) ->
  render_frames C uid prompt
    [prompt; first_line (match poem_text with Some t => t | None => "" end)]
    (firstn 3 palettes) 0 d =
  (Ok (frame_paths C uid), frames_disk C uid prompt poem_text d).
Proof.
  intros Hw. cbn [firstn palettes].
  rewrite render_cons by exact Hw. unfold fbind at 1.
  rewrite render_cons by exact Hw. unfold fbind at 1.
  rewrite render_cons by exact Hw. reflexivity.
Qed.

Lemma append_cancel_l (a b c : string) : a ++ b = a ++ c -> b = c.
Proof. induction a as [|x a IH]; cbn; [auto | intros H; injection H as H; exact (IH H)]. Qed.

Lemma str_or_same s : str_or s s = s.
Proof.
  unfold str_or. destruct (String.eqb s ""); reflexivity.
Qed.

(** What [NoDup (output_files C uid)] says about the five files. *)
Lemma output_distinct C uid :
  NoDup (output_files C uid) ->
  let r i := resolve C (join_path C (frame_name uid i)) in
  let ro := resolve C (video_path C uid) in
  let rt := resolve C (temp_audiofile (video_path C uid)) in
  r 0 <> r 1 /\ r 0 <> r 2 /\ r 1 <> r 2 /\
  ~ In ro (map (resolve C) (frame_paths C uid)) /\
  ~ In rt (map (resolve C) (frame_paths C uid)) /\ ro <> rt.
Proof.
  unfold output_files, frame_paths. cbn [map app]. intros H.
  apply NoDup_cons_iff in H as [A0 H]. apply NoDup_cons_iff in H as [A1 H].
  apply NoDup_cons_iff in H as [A2 H]. apply NoDup_cons_iff in H as [A3 _].
  cbn [In] in A0, A1, A2, A3. cbn [In].
  repeat split; intros X; try (subst; tauto).
  all: repeat destruct X as [X|X]; try tauto; rewrite <- X in *; tauto.
Qed.

Lemma clips3 C uid prompt poem_text d :
  NoDup (output_files C uid) ->
  image_clips C (frame_paths C uid) (frames_disk C uid prompt poem_text d) =
  (Ok (expected_clips C prompt poem_text), frames_disk C uid prompt poem_text d).
Proof.
  intros Hnd. destruct (output_distinct C uid Hnd) as (N01 & N02 & N12 & _).
  unfold frame_paths. cbn [map image_clips]. unfold fbind, fret, image_clip.
  unfold frames_disk.
  rewrite (dict_lookup_set_other _ _ _ _ N02), (dict_lookup_set_other _ _ _ _ N01),
    dict_lookup_set_same.
  rewrite (dict_lookup_set_other _ _ _ _ N12), dict_lookup_set_same.
  rewrite dict_lookup_set_same.
  unfold expected_clips, make_frame_image. simpl.
  rewrite !str_or_same. reflexivity.
Qed.

Lemma render_keys C uid prompt texts m pals : forall i d o d1,
  render_frames C uid prompt texts pals i d = (o, d1) ->
  (forall j, i <= j -> j < i + length pals ->
     m <> resolve C (join_path C (frame_name uid j))) ->
  dict_lookup m d1 = dict_lookup m d.
Proof.
  induction pals as [|pal rest IH]; intros i d o d1 H Hm.
  - cbn in H. injection H as _ <-. reflexivity.
  - assert (Hi : m <> resolve C (join_path C (frame_name uid i))) by (apply Hm; cbn; lia).
    cbn [render_frames] in H. unfold fbind at 1, save_image in H.
    destruct (write_at C _).
    + unfold fbind in H.
      destruct (render_frames C uid prompt texts rest (S i) _) as [o' d'] eqn:Hr.
      assert (Hl := IH (S i) _ o' d' Hr).
      assert (Hd1 : d1 = d') by (destruct o'; injection H as _ <-; reflexivity).
      subst d1.
      rewrite Hl by (intros j Hj1 Hj2; apply Hm; cbn; lia).
      apply dict_lookup_set_other. exact Hi.
    + injection H as _ <-; reflexivity.
    + injection H as _ <-.
      destruct (dict_lookup _ d); [apply dict_lookup_set_other; exact Hi | reflexivity].
Qed.

Lemma image_clips_fs C ps : forall d o d', image_clips C ps d = (o, d') -> d' = d.
Proof.
  induction ps as [|p ps IH]; intros d o d' H.
  - cbn in H. injection H as _ <-. reflexivity.
  - cbn [image_clips] in H. unfold fbind at 1, image_clip in H.
    destruct (dict_lookup _ d) as [[]|]; try (injection H as _ <-; reflexivity).
    unfold fbind in H.
    destruct (image_clips C ps d) as [o' d''] eqn:Hr.
    apply IH in Hr. subst d''.
    destruct o'; injection H as _ <-; reflexivity.
Qed.

Lemma not_frame C uid m j :
  ~ In m (map (resolve C) (frame_paths C uid)) -> 0 <= j -> j < 0 + length (firstn 3 palettes) ->
  m <> resolve C (join_path C (frame_name uid j)).
Proof.
  intros Hn _ Hj Heq. apply Hn. subst m. cbn in Hj.
  destruct j as [|[|[|j]]]; [left | right; left | right; right; left | lia]; reflexivity.
Qed.

(** A music path that names no file and no frame: the same run as without. *)
Lemma generate_missing_music C prompt poem_text mp m uid d :
  music_given mp = Some m -> dict_lookup (resolve C m) d = None ->
  ~ In (resolve C m) (map (resolve C) (frame_paths C uid)) ->
  generate C prompt poem_text mp uid d = generate C prompt poem_text None uid d.
Proof.
  intros Hg Hd Hn. unfold generate. cbv beta zeta. rewrite Hg.
  unfold fbind.
  destruct (render_frames C uid prompt _ (firstn 3 palettes) 0 d) as [[fr|x] d1] eqn:Hr;
    [|reflexivity].
  destruct (image_clips C fr d1) as [[cl|x] d2] eqn:Hc; [|reflexivity].
  apply image_clips_fs in Hc. subst d2.
  apply (render_keys C uid prompt _ (resolve C m)) in Hr;
    [|exact (fun j H0 Hj => not_frame C uid _ j Hn H0 Hj)].
  unfold exists_path. rewrite Hr, Hd.
  reflexivity.
Qed.

Lemma generate_run C prompt poem_text mp uid d :
  (forall f, write_at C f = WriteOk) -> NoDup (output_files C uid) ->
  let d3 := frames_disk C uid prompt poem_text d in
  let v := mkVideo (expected_clips C prompt poem_text) None in
  let out := video_path C uid in
  let ro := resolve C out in
  let rt := resolve C (temp_audiofile out) in
  let plain := (Ok (mkArtifact out (round2 (video_duration v))),
                dict_set ro (FVideo v) d3) in
  generate C prompt poem_text mp uid d =
  match music_given mp with
  | None => plain
  | Some m =>
      match option_map audio_of (dict_lookup (resolve C m) d3) with
      | None => plain
      | Some (Some dur) =>
          let a := mkAudio m 0 (Qmin (video_duration v) dur) in
          let va := mkVideo (expected_clips C prompt poem_text) (Some a) in
          (Ok (mkArtifact out (round2 (video_duration va))),
           dict_remove rt (dict_set ro (FVideo va)
                             (dict_set rt (FAudio (audio_end a - audio_start a)) d3)))
      | Some None => (Exc (Other "OSError: failed to read the audio"), d3)
      end
  end.
Proof.
  intros Hw Hnd d3 v out ro rt plain.
  unfold generate. cbv beta zeta. unfold fbind at 1.
  rewrite render3 by exact Hw. unfold fbind at 1.
  rewrite clips3 by exact Hnd.
  fold d3.
  destruct (music_given mp) as [m|].
  2: { unfold fbind, fret, write_videofile, ffmpeg_write. cbn [v_audio]. rewrite Hw.
       reflexivity. }
  unfold fbind, fret, exists_path, audio_file_clip, write_videofile, ffmpeg_write,
    remove_file.
  cbv beta iota. cbn [v_audio]. rewrite !Hw.
  destruct (dict_lookup (resolve C m) d3) as [f|] eqn:E; rewrite ?E; cbn [option_map];
    [|reflexivity].
  destruct (audio_of f) as [dur|]; cbv beta iota; [|reflexivity].
  cbn [v_audio v_clips]. unfold fbind, fret, exists_path, remove_file.
  cbv beta iota. fold out ro rt.
  match goal with |- context [match dict_lookup (V:=file) ?k ?x with _ => _ end] =>
    destruct (dict_lookup k x) eqn:Ht end; [reflexivity|].
  exfalso. revert Ht. apply dict_lookup_set_some. rewrite dict_lookup_set_same. discriminate.
Qed.

Lemma disk_lookup_other C uid prompt poem_text d m :
  ~ In m (map (resolve C) (frame_paths C uid)) ->
  dict_lookup m (frames_disk C uid prompt poem_text d) = dict_lookup m d.
Proof.
  intros Hn. unfold frames_disk.
  rewrite !dict_lookup_set_other; [reflexivity | ..];
    intros ->; apply Hn; unfold frame_paths; cbn [map In]; tauto.
Qed.

Lemma disk_lookup_frame C uid prompt poem_text d m :
  NoDup (output_files C uid) ->
  In m (map (resolve C) (frame_paths C uid)) ->
  exists img, dict_lookup m (frames_disk C uid prompt poem_text d) = Some (FImage img).
Proof.
  intros Hnd. destruct (output_distinct C uid Hnd) as (N01 & N02 & N12 & _).
  unfold frame_paths; cbn [map In]. unfold frames_disk.
  intros [<- | [<- | [<- | []]]].
  - rewrite (dict_lookup_set_other _ _ _ _ N02), (dict_lookup_set_other _ _ _ _ N01),
      dict_lookup_set_same. eexists. reflexivity.
  - rewrite (dict_lookup_set_other _ _ _ _ N12), dict_lookup_set_same.
    eexists. reflexivity.
  - rewrite dict_lookup_set_same. eexists. reflexivity.
Qed.

(** C6 (amended). [AnimationGenerator.generate] renders three 720x720
    frames in the first three palette colours, with the texts [prompt], the
    first poem line (or [prompt]) and [prompt] wrapped at 30 columns, as
    1-second clips in order (3 s in all). Paths are compared after
    resolution, and the output paths of one call (its three frames, its video
    and the temporary audio file that [write_videofile] puts in the working
    directory) are taken to be distinct files. A music path naming no file
    and no frame of the call gives the same run as no path. With working
    disk writes: without audio the video has no track and the temporary
    file is left as it was; a path to a file with an audio stream (an audio
    file, or a video with a sound track) attaches it trimmed to
    [min(video.duration, audio.duration)], and the temporary audio file is
    removed; a path that exists when checked and has no audio stream (a
    frame of this call included) makes [AudioFileClip] raise. *)
Theorem C6_animation_artifact C prompt poem_text mp uid d :
  NoDup (output_files C uid) ->
  let files := map (resolve C) (frame_paths C uid) in
  let out := video_path C uid in
  let tmp := resolve C (temp_audiofile out) in
  (forall m, music_given mp = Some m -> dict_lookup (resolve C m) d = None ->
     ~ In (resolve C m) files ->
     generate C prompt poem_text mp uid d = generate C prompt poem_text None uid d) /\
  ((forall p, write_at C p = WriteOk) ->
   let clips := expected_clips C prompt poem_text in
   let v := mkVideo clips None in
   video_duration v = 3%Q /\
   (music_given mp = None \/
    (exists m, music_given mp = Some m /\ dict_lookup (resolve C m) d = None /\
               ~ In (resolve C m) files) ->
    exists d', generate C prompt poem_text mp uid d =
               (Ok (mkArtifact out (round2 (video_duration v))), d') /\
               dict_lookup (resolve C out) d' = Some (FVideo v) /\
               dict_lookup tmp d' = dict_lookup tmp d) /\
   (forall m f dur, music_given mp = Some m -> ~ In (resolve C m) files ->
    dict_lookup (resolve C m) d = Some f -> audio_of f = Some dur ->
    exists d', generate C prompt poem_text mp uid d =
               (Ok (mkArtifact out (round2 (video_duration v))), d') /\
               dict_lookup (resolve C out) d' =
                 Some (FVideo (mkVideo clips
                                 (Some (mkAudio m 0 (Qmin (video_duration v) dur))))) /\
               dict_lookup tmp d' = None) /\
   (forall m, music_given mp = Some m ->
    In (resolve C m) files \/
    (~ In (resolve C m) files /\
     exists f, dict_lookup (resolve C m) d = Some f /\ audio_of f = None) ->
    fst (generate C prompt poem_text mp uid d) =
      Exc (Other "OSError: failed to read the audio"))).
Proof.
  intros Hnd. cbv zeta.
  destruct (output_distinct C uid Hnd) as (_ & _ & _ & Ho & Ht & Hot).
  split.
  { intros m Hg Hd Hn. exact (generate_missing_music C prompt poem_text mp m uid d Hg Hd Hn). }
  intros Hw.
  pose proof (generate_run C prompt poem_text mp uid d Hw Hnd) as R. cbv zeta in R.
  split; [reflexivity|].
  split.
  { intros [Hg | (m & Hg & Hd & Hn)]; rewrite R, Hg;
      [|rewrite (disk_lookup_other C uid prompt poem_text d _ Hn), Hd; cbn [option_map]];
      eexists; (split; [reflexivity | split; [apply dict_lookup_set_same |]]);
      (rewrite dict_lookup_set_other by congruence;
       exact (disk_lookup_other C uid prompt poem_text d _ Ht)). }
  split.
  { intros m f dur Hg Hn Hd Ha.
    rewrite R, Hg, (disk_lookup_other C uid prompt poem_text d _ Hn), Hd.
    cbn [option_map]. rewrite Ha.
    eexists; split; [reflexivity | split].
    - rewrite dict_lookup_remove_other by congruence. apply dict_lookup_set_same.
    - apply dict_lookup_remove_same. }
  intros m Hg Hcase. rewrite R, Hg.
  destruct Hcase as [Hin | (Hn & f & Hd & Hf)].
  - destruct (disk_lookup_frame C uid prompt poem_text d _ Hnd Hin) as [img ->]. reflexivity.
  - rewrite (disk_lookup_other C uid prompt poem_text d _ Hn), Hd. cbn [option_map].
    rewrite Hf. reflexivity.
Qed.

(** C6: a music path absent at the call but naming a frame written by it
    (under its own name or as [./out/...]), and an existing file with no
    audio stream, make [generate] raise. *)
Lemma C6_music_path_cases :
  dict_lookup "out/frame_0_0.png" [] = @None file /\
  fst (generate sample_ctx "hi" None (Some "out/frame_0_0.png") None []) =
    Exc (Other "OSError: failed to read the audio") /\
  dict_lookup "./out/frame_0_0.png" [] = @None file /\
  fst (generate sample_ctx "hi" None (Some "./out/frame_0_0.png") None []) =
    Exc (Other "OSError: failed to read the audio") /\
  fst (generate sample_ctx "hi" None (Some "notes.txt") None notes_disk) =
    Exc (Other "OSError: failed to read the audio").
Proof. vm_compute. repeat split. Qed.

Lemma C6_witness :
  exists d', generate sample_ctx "hi" None (Some "song.mp4") None song_disk =
    (Ok (mkArtifact "out/video_anon.mp4"
          (round2 (video_duration (mkVideo (expected_clips sample_ctx "hi" None) None)))), d').
Proof.
  assert (Hnd : NoDup (output_files sample_ctx None)).
  { vm_compute.
    repeat (constructor; [cbn [In]; intros Hin;
                          repeat (destruct Hin as [Hin|Hin]; [discriminate Hin|]); exact Hin|]).
    constructor. }
  destruct (C6_animation_artifact sample_ctx "hi" None (Some "song.mp4") None song_disk Hnd)
    as [_ H].
  destruct (H (fun _ => eq_refl)) as (_ & _ & A & _).
  assert (Hn : ~ In (resolve sample_ctx "song.mp4")
                    (map (resolve sample_ctx) (frame_paths sample_ctx None))).
  { vm_compute. intros Hin. repeat (destruct Hin as [Hin|Hin]; [discriminate Hin|]). exact Hin. }
  destruct (A "song.mp4" (FVideo song_video) _ eq_refl Hn eq_refl eq_refl) as (d' & Hg & _).
  exists d'. exact Hg.
Defined.
End AnimFacts.

(** * The poem template *)

Module PoemFacts.

(** C5. [PoemGenerator.generate] is a function of [prompt] alone (the
    [style] argument is ignored): it joins with newlines the capitalized
    prompt, a blank line, the four fixed template lines, a blank line and the
    attribution line ending in the original prompt. For
    ["a night of rhythm and colors"] the poem starts with
    ["A night of rhythm and colors"]. *)
Theorem C5_poem_template p st :
  PoemGenerator.generate p st =
    Py.join Py.newline [Py.capitalize p; ""; PoemGenerator.line1; PoemGenerator.line2;
                        PoemGenerator.line3; PoemGenerator.line4; "";
                        PoemGenerator.attribution_prefix ++ p] /\
  PoemGenerator.generate p st =
    Py.capitalize p ++ Py.newline ++ Py.newline ++
    PoemGenerator.line1 ++ Py.newline ++ PoemGenerator.line2 ++ Py.newline ++
    PoemGenerator.line3 ++ Py.newline ++ PoemGenerator.line4 ++ Py.newline ++
    Py.newline ++ PoemGenerator.attribution_prefix ++ p /\
  PoemGenerator.generate p st = PoemGenerator.generate p None /\
  String.prefix "A night of rhythm and colors"
    (PoemGenerator.generate "a night of rhythm and colors" st) = true.
Proof. split; [reflexivity|]. split; [reflexivity|]. split; [reflexivity|]. vm_compute. reflexivity. Qed.

End PoemFacts.

(** * POST /api/generate: persistence, retrieval and the prompt *)

Module PostFacts.
Import App AppRun Facts.

(** C7, counterexample. A request whose prompt has surrounding spaces,
    [" hi "], is stored and echoed as ["hi"]: the record read back does not
    match the prompt string of the request exactly. *)
Lemma C7_stripped_prompt_stored :
  match post_generate working_gens sample_env (json_req 64 spaced_kvs) empty_world with
  | (Ok r, w') => result_field r "content_id" = Some (VStr "uuid-2") /\
      match fst (get_content_route sample_env "uuid-2" w') with
      | Ok g => code g = 200%Z /\ content_prompt g = Some (VStr "hi")
      | Exc _ => False
      end
  | _ => False
  end.
Proof. vm_compute. repeat split. Qed.

Lemma save_step_cases E p results uid sid w res w3 :
  save_step E p results uid sid w = (Ok res, w3) ->
  (res = results /\ contents w3 = contents w) \/
  (exists cid, res = dict_set "content_id" (VStr cid) results /\
   existsb (fun r => String.eqb (c_content_id r) cid) (contents w) = false /\
   jsonable (results_get results "poem") = true /\
   jsonable (results_get results "music") = true /\
   jsonable (results_get results "animation") = true /\
   contents w3 = (contents w ++ [mkContentRow cid p (results_get results "poem")
                    (results_get results "music") (results_get results "animation")
                    uid sid])%list).
Proof.
  rewrite save_step_run. intros H.
  destruct (save_fault E); [injection H as <- <-; left; split; reflexivity|].
  destruct (jsonable (results_get results "poem")) eqn:J1;
    [|injection H as <- <-; left; split; reflexivity].
  destruct (jsonable (results_get results "music")) eqn:J2;
    [|injection H as <- <-; left; split; reflexivity].
  destruct (jsonable (results_get results "animation")) eqn:J3;
    [|injection H as <- <-; left; split; reflexivity].
  cbn [andb] in H. cbv zeta in H.
  destruct (existsb _ (contents w)) eqn:X; [injection H as <- <-; left; split; reflexivity|].
  injection H as <- <-. right. eexists. repeat split; eassumption.
Qed.

Lemma tail_contents E p res errs uid sid start w3 r w' :
  flask_serve (try_ (finish E p res errs uid sid start) (handler E start)) w3
  = (Ok r, w') -> contents w' = contents w3.
Proof.
  unfold flask_serve, try_; cbv beta. rewrite finish_run.
  destruct (log_fault E (log_calls w3)) as [m|].
  - unfold handler; cbn [is_bad_request]. rewrite internal_error_path_run.
    destruct (log_fault E (log_calls (logged w3 2 [])));
      intros H; cbv beta iota zeta in H; injection H as _ <-; reflexivity.
  - cbv zeta. destruct (jsonable (VDict (success_body p res errs (iso_at E (clock w3)) sid))).
    + intros H; cbv beta iota zeta in H; injection H as _ <-; reflexivity.
    + unfold handler; cbn [is_bad_request]. rewrite internal_error_path_run.
      match goal with |- context [log_fault E ?n] => destruct (log_fault E n) end;
        intros H; cbv beta iota zeta in H; injection H as _ <-; reflexivity.
Qed.

Lemma producers_results_no_cid G opts p :
  dict_lookup "content_id" (producers_results G opts p) = None.
Proof. unfold producers_results. rewrite !dict_lookup_set_opt_other by discriminate. reflexivity. Qed.

Lemma find_after f (l : list content_row) x :
  existsb f l = false -> f x = true -> find f (l ++ [x]) = Some x.
Proof.
  induction l as [|y l IH]; cbn; intros Hl Hx; [rewrite Hx; reflexivity|].
  apply orb_false_iff in Hl as [Hy Hl]. rewrite Hy. exact (IH Hl Hx).
Qed.

Lemma jsonable_row r :
  jsonable (c_poem r) = true -> jsonable (c_music r) = true ->
  jsonable (c_animation r) = true -> jsonable (c_user_id r) = true ->
  jsonable (c_session_id r) = true -> jsonable (content_row_dict r) = true.
Proof.
  intros H1 H2 H3 H4 H5. unfold content_row_dict. rewrite jsonable_dict.
  cbn [forallb]. rewrite H1, H2, H3, H4, H5. reflexivity.
Qed.

(** The POST answers other than 200 leave validation failing. *)
Lemma post_generate_200 G E n kvs s w r w' :
  dict_lookup "prompt" kvs = Some (VStr s) ->
  post_generate G E (json_req n kvs) w = (Ok r, w') -> code r = 200%Z ->
  (n <= MAX_CONTENT_LENGTH)%N /\ Py.strip s <> "" /\ String.length (Py.strip s) <= 500.
Proof.
  intros Hp H H200.
  destruct (validate_result E (json_req n kvs) (prefix_world E w)) as [_ Hm].
  destruct (validate_request E (json_req n kvs) (prefix_world E w)) as [o w1] eqn:Hv.
  cbn [fst] in Hm. destruct o as [v|x].
  - destruct Hm as [_ (n' & kvs' & s' & Hk & Hn & Hp' & Hne & Hlen)].
    injection Hk as <- <-. rewrite Hp in Hp'. injection Hp' as <-. auto.
  - rewrite (post_generate_rejected G E _ w x w1 Hv), serve_handler_run in H.
    exfalso. destruct (log_fault E (log_calls w1)); [|destruct (is_bad_request x)];
      injection H as <- _; discriminate H200.
Qed.

(** C7 (amended). GET /api/content/<id> with a working read answers 404
    with [{"error": "Content not found"}] when no row has that id. After a
    POST of a JSON object with a str prompt [s] (and serialisable request
    fields) answered 200 with a [content_id], the response echoes
    [s.strip()], and GET of that id on the resulting store answers 200 with
    a record whose prompt is [s.strip()], which differs from [s] when [s]
    has surrounding whitespace. *)
Theorem C7_get_content_after_post E :
  (forall cid w0, read_fault E = None ->
     existsb (fun row => String.eqb (c_content_id row) cid) (contents w0) = false ->
     get_content_route E cid w0 =
       (Ok (mkResponse 404 (VDict [("error", VStr "Content not found")])), w0)) /\
  (forall G n kvs s w r w' cid,
     dict_lookup "prompt" kvs = Some (VStr s) -> jsonable (VDict kvs) = true ->
     read_fault E = None ->
     post_generate G E (json_req n kvs) w = (Ok r, w') ->
     code r = 200%Z -> result_field r "content_id" = Some (VStr cid) ->
     body_field r "prompt" = Some (VStr (Py.strip s)) /\
     exists g, fst (get_content_route E cid w') = Ok g /\ code g = 200%Z /\
       content_prompt g = Some (VStr (Py.strip s))).
Proof.
  split.
  { intros cid w0 Hr Hx. unfold get_content_route, get_content, flask_serve, try_,
      bind, content_model_new, ret, get_content_row, lift, jsonify.
    rewrite Hr. cbn -[find]. 
    assert (Hf : find (fun r => String.eqb (c_content_id r) cid) (contents w0) = None).
    { induction (contents w0) as [|y l IH]; [reflexivity|].
      cbn in Hx |- *. apply orb_false_iff in Hx as [Hy Hl]. rewrite Hy. exact (IH Hl). }
    rewrite Hf. reflexivity. }
  intros G n kvs s w r w' cid Hp Hj Hr H H200 Hcid.
  destruct (post_generate_200 G E n kvs s w r w' Hp H H200) as (Hn & Hne & Hlen).
  run_valid H Hn Hp Hne Hlen.
  pose proof (tail_contents _ _ _ _ _ _ _ _ _ _ H) as Hct.
  apply tail_shape in H as [[-> | H5] _]; [|rewrite H5 in H200; discriminate H200].
  unfold result_field, body_field in Hcid; cbn [body] in Hcid.
  destruct (success_body_fields (Py.strip s) res
              (producers_errors G (request_options kvs) (Py.strip s))
              (iso_at E (clock w3))
              (dict_get kvs "session_id" (VStr (uuid_at E (S (uuids w))))))
    as (_ & _ & F3 & F4).
  rewrite F3 in Hcid.
  split; [unfold body_field; cbn [body]; exact F4|].
  destruct (save_step_cases _ _ _ _ _ _ _ _ Hs)
    as [[-> _] | (cid0 & -> & Hx & J1 & J2 & J3 & Hc3)].
  { rewrite producers_results_no_cid in Hcid. discriminate Hcid. }
  rewrite dict_lookup_set_same in Hcid. injection Hcid as <-.
  unfold get_content_route, get_content, flask_serve, try_, bind, content_model_new,
    ret, get_content_row, lift, utcnow_iso.
  rewrite Hr. cbv beta iota.
  rewrite Hct, Hc3, find_after; [|exact Hx | apply String.eqb_refl].
  cbn [option_map]. unfold jsonify.
  rewrite jsonable_dict. cbn [forallb]. rewrite jsonable_row; cbn [c_poem c_music c_animation c_user_id c_session_id];
    [| exact J1 | exact J2 | exact J3
     | apply jsonable_dict_get; [exact Hj | reflexivity]
     | apply jsonable_dict_get; [exact Hj | reflexivity]].
  eexists. split; [reflexivity|]. split; reflexivity.
Qed.

Lemma finish_env E f : finish (with_save_fault E f) = finish E.
Proof. reflexivity. Qed.
Lemma handler_env E f : handler (with_save_fault E f) = handler E.
Proof. reflexivity. Qed.
Lemma prefix_env E f : prefix_world (with_save_fault E f) = prefix_world E.
Proof. reflexivity. Qed.
Lemma validated_env E f : validated_world (with_save_fault E f) = validated_world E.
Proof. reflexivity. Qed.
Lemma validate_env E f : validate_request (with_save_fault E f) = validate_request E.
Proof. reflexivity. Qed.

Lemma tail_fst E p res errs uid sid start w3 :
  fst (flask_serve (try_ (finish E p res errs uid sid start) (handler E start)) w3) =
  let body := success_body p res errs (iso_at E (clock w3)) sid in
  let fallback := match log_fault E (S (log_calls w3)) with
                  | Some _ => Ok flask_500
                  | None => Ok (internal_response (iso_at E (S (2 + clock w3))))
                  end in
  match log_fault E (log_calls w3) with
  | Some _ => fallback
  | None => if jsonable (VDict body) then Ok (mkResponse 200 (VDict body)) else fallback
  end.
Proof.
  unfold flask_serve, try_; cbv beta. rewrite finish_run.
  destruct (log_fault E (log_calls w3)) as [m|].
  - unfold handler; cbn [is_bad_request]. rewrite internal_error_path_run.
    cbn [logged log_calls clock]. destruct (log_fault E (S (log_calls w3))); reflexivity.
  - cbv zeta. destruct (jsonable _); [reflexivity|].
    unfold handler; cbn [is_bad_request]. rewrite internal_error_path_run.
    cbn [logged log_calls clock]. destruct (log_fault E (S (log_calls w3))); reflexivity.
Qed.

Lemma dict_set_absent {V} k (v : V) kvs :
  dict_lookup k kvs = None -> dict_set k v kvs = (kvs ++ [(k, v)])%list.
Proof.
  induction kvs as [|[k' v'] kvs IH]; cbn; intros H; [reflexivity|].
  destruct (String.eqb k k'); [discriminate H|]. rewrite (IH H). reflexivity.
Qed.

Lemma jsonable_success_eq p res errs ts sid :
  jsonable (VDict (success_body p res errs ts sid)) = jsonable (VDict res) && jsonable sid.
Proof.
  unfold success_body. cbv zeta.
  destruct errs as [|e errs]; cbn [dict_set String.eqb Ascii.eqb Bool.eqb];
    rewrite jsonable_dict; cbn [forallb]; rewrite ?jsonable_errors_val;
    cbn [jsonable]; destruct (jsonable (VDict res)), (jsonable sid); reflexivity.
Qed.

Lemma jsonable_add_cid res cid :
  dict_lookup "content_id" res = None ->
  jsonable (VDict (dict_set "content_id" (VStr cid) res)) = jsonable (VDict res).
Proof.
  intros H. rewrite dict_set_absent by exact H. rewrite !jsonable_dict, forallb_app.
  cbn. apply andb_true_r.
Qed.

Lemma add_content_id_success cid p res errs ts sid :
  add_content_id cid (mkResponse 200 (VDict (success_body p res errs ts sid))) =
  mkResponse 200 (VDict (success_body p (dict_set "content_id" (VStr cid) res) errs ts sid)).
Proof.
  unfold add_content_id; cbn [body code].
  rewrite (proj1 (proj2 (proj2 (success_body_fields p res errs ts sid)))).
  destruct errs; reflexivity.
Qed.

Lemma add_content_id_fields cid r k :
  k <> "results" -> code (add_content_id cid r) = code r /\
  body_field (add_content_id cid r) k = body_field r k.
Proof.
  intros Hk. destruct r as [c bd]. unfold add_content_id, body_field; cbn [body code].
  destruct bd as [|b|z|s0|l|kvs|p0]; try (split; reflexivity).
  destruct (dict_lookup "results" kvs) as [[|b|z|s0|l|res|p0]|]; try (split; reflexivity).
  cbn [body code]. split; [reflexivity|]. apply dict_lookup_set_other. exact Hk.
Qed.

Lemma tail_cid E p res errs uid sid start w3 w3' cid :
  clock w3' = clock w3 -> log_calls w3' = log_calls w3 ->
  dict_lookup "content_id" res = None ->
  exists r,
    fst (flask_serve (try_ (finish E p res errs uid sid start) (handler E start)) w3)
      = Ok r /\
    result_field r "content_id" = None /\
    (fst (flask_serve (try_ (finish E p (dict_set "content_id" (VStr cid) res) errs
                               uid sid start) (handler E start)) w3') = Ok r \/
     fst (flask_serve (try_ (finish E p (dict_set "content_id" (VStr cid) res) errs
                               uid sid start) (handler E start)) w3')
       = Ok (add_content_id cid r)).
Proof.
  intros Hc Hl Hn. rewrite !tail_fst, Hc, Hl. cbv zeta.
  rewrite !jsonable_success_eq, jsonable_add_cid by exact Hn.
  destruct (log_fault E (log_calls w3));
    [|destruct (jsonable (VDict res) && jsonable sid)].
  2: { eexists. split; [reflexivity|]. split.
       - unfold result_field, body_field; cbn [body].
         rewrite (proj1 (proj2 (proj2 (success_body_fields _ _ _ _ _)))). exact Hn.
       - right. rewrite add_content_id_success. reflexivity. }
  all: destruct (log_fault E (S (log_calls w3))); eexists;
    (split; [reflexivity | split; [reflexivity | left; reflexivity]]).
Qed.

Lemma tail_same E p res errs uid sid start w3 w3' :
  clock w3' = clock w3 -> log_calls w3' = log_calls w3 ->
  fst (flask_serve (try_ (finish E p res errs uid sid start) (handler E start)) w3') =
  fst (flask_serve (try_ (finish E p res errs uid sid start) (handler E start)) w3).
Proof. intros Hc Hl. rewrite !tail_fst, Hc, Hl. reflexivity. Qed.

(** C8. Running the same POST once with a failing [save_content] and once
    with a working one: the failing run has no [content_id] in results, and
    the working run's response is the same, or the same with a
    [content_id] added to results; the HTTP code, the status field (set by
    the producers' errors only) and the errors field agree. *)
Theorem C8_save_failure_invisible G E m req w r1 w1 r2 w2 :
  post_generate G (with_save_fault E (Some m)) req w = (Ok r1, w1) ->
  post_generate G (with_save_fault E None) req w = (Ok r2, w2) ->
  result_field r1 "content_id" = None /\
  (r2 = r1 \/ exists cid, r2 = add_content_id cid r1) /\
  code r2 = code r1 /\ body_field r2 "status" = body_field r1 "status" /\
  body_field r2 "errors" = body_field r1 "errors".
Proof.
  intros H1 H2.
  assert (Hmain : result_field r1 "content_id" = None /\
                  (r2 = r1 \/ exists cid, r2 = add_content_id cid r1)).
  2: { destruct Hmain as [Hn [-> | (cid & ->)]].
       - repeat split; first [exact Hn | left; reflexivity].
       - destruct (add_content_id_fields cid r1 "status" ltac:(discriminate)) as [C1 S1].
         destruct (add_content_id_fields cid r1 "errors" ltac:(discriminate)) as [_ S2].
         repeat split; first [assumption | right; eexists; reflexivity]. }
  destruct (validate_result E req (prefix_world E w)) as [_ Hm].
  destruct (validate_request E req (prefix_world E w)) as [o w0] eqn:Hv.
  cbn [fst] in Hm. destruct o as [v|x].
  - destruct Hm as [_ (n & kvs & s & -> & HN & Hp & Hne & Hlen)].
    pose proof (post_generate_valid G (with_save_fault E (Some m)) n kvs s w HN Hp Hne Hlen) as V1.
    pose proof (post_generate_valid G (with_save_fault E None) n kvs s w HN Hp Hne Hlen) as V2.
    cbv zeta in V1, V2. rewrite V1 in H1. rewrite V2 in H2. clear V1 V2.
    rewrite !finish_env, !handler_env, !prefix_env, !validated_env in H1, H2.
    rewrite save_step_run in H1, H2.
    cbn [save_fault uuid_at time_at with_save_fault] in H1, H2.
    cbv iota zeta in H1, H2.
    apply (f_equal fst) in H1. apply (f_equal fst) in H2. cbn [fst] in H1, H2.
    set (w3 := add_trace (validated_world E kvs s (prefix_world E w))
                         (producers_events G (request_options kvs))) in *.
    set (res := producers_results G (request_options kvs) (Py.strip s)) in *.
    destruct (tail_cid E (Py.strip s) res (producers_errors G (request_options kvs) (Py.strip s))
                (dict_get kvs "user_id" (VStr "anonymous"))
                (dict_get kvs "session_id" (VStr (uuid_at E (S (uuids w)))))
                (time_at E (clock w)) w3 w3 (uuid_at E (uuids w3)) eq_refl eq_refl
                (producers_results_no_cid _ _ _)) as (r & Hr & Hn & Hor).
    rewrite Hr in H1. injection H1 as <-. split; [exact Hn|].
    destruct (_ && _ && _) in H2; [destruct (existsb _ _) in H2|].
    + rewrite (tail_same _ _ _ _ _ _ _ w3) in H2 by reflexivity.
      rewrite Hr in H2. injection H2 as <-. left; reflexivity.
    + destruct (tail_cid E (Py.strip s) res (producers_errors G (request_options kvs) (Py.strip s))
                (dict_get kvs "user_id" (VStr "anonymous"))
                (dict_get kvs "session_id" (VStr (uuid_at E (S (uuids w)))))
                (time_at E (clock w)) w3 (saved_world w3 (mkContentRow (uuid_at E (uuids w3)) (Py.strip s)
                               (results_get res "poem") (results_get res "music")
                               (results_get res "animation")
                               (dict_get kvs "user_id" (VStr "anonymous"))
                               (dict_get kvs "session_id" (VStr (uuid_at E (S (uuids w)))))))
                (uuid_at E (uuids w3)) eq_refl eq_refl
                (producers_results_no_cid _ _ _)) as (r' & Hr' & _ & [Ho | Ho]).
      * rewrite Hr in Hr'. injection Hr' as <-.
        rewrite Ho in H2. injection H2 as <-. left; reflexivity.
      * rewrite Hr in Hr'. injection Hr' as <-.
        rewrite Ho in H2. injection H2 as <-. right; eexists; reflexivity.
    + rewrite Hr in H2. injection H2 as <-. left; reflexivity.
  - rewrite (post_generate_rejected G _ req w x w0) in H1
      by (rewrite validate_env, prefix_env; exact Hv).
    rewrite (post_generate_rejected G _ req w x w0) in H2
      by (rewrite validate_env, prefix_env; exact Hv).
    rewrite handler_env in H1, H2. cbn [time_at with_save_fault] in H1, H2.
    rewrite H1 in H2. injection H2 as <- _. split; [|left; reflexivity].
    rewrite serve_handler_run in H1.
    destruct (log_fault E (log_calls w0)); [injection H1 as <- _; reflexivity|].
    injection H1 as <- _. destruct (is_bad_request x); reflexivity.
Qed.

(** Witness for C8. *)
Lemma C8_witness :
  match post_generate working_gens (with_save_fault sample_env (Some "disk I/O error"))
          (json_req 64 sample_kvs) empty_world,
        post_generate working_gens sample_env (json_req 64 sample_kvs) empty_world with
  | (Ok r1, _), (Ok r2, _) => result_field r1 "content_id" = None /\ code r2 = code r1
  | _, _ => False
  end.
Proof.
  destruct (post_generate working_gens (with_save_fault sample_env (Some "disk I/O error"))
              (json_req 64 sample_kvs) empty_world) as [[r1|x1] w1] eqn:H1;
    [|vm_compute in H1; discriminate H1].
  destruct (post_generate working_gens sample_env (json_req 64 sample_kvs) empty_world)
    as [[r2|x2] w2] eqn:H2; [|vm_compute in H2; discriminate H2].
  change sample_env with (with_save_fault sample_env None) in H2.
  destruct (C8_save_failure_invisible working_gens sample_env "disk I/O error"
              (json_req 64 sample_kvs) empty_world r1 w1 r2 w2 H1 H2) as (Hn & _ & Hc & _).
  split; assumption.
Defined.






(** Witness for C7. *)
Lemma C7_witness :
  match post_generate working_gens sample_env (json_req 64 sample_kvs) empty_world with
  | (Ok r, w') =>
      exists g, fst (get_content_route sample_env "uuid-2" w') = Ok g /\ code g = 200%Z
  | (Exc _, _) => False
  end.
Proof.
  destruct (post_generate working_gens sample_env (json_req 64 sample_kvs) empty_world)
    as [[r|x] w'] eqn:H; [|vm_compute in H; discriminate H].
  assert (Hr : code r = 200%Z /\ result_field r "content_id" = Some (VStr "uuid-2")).
  { pose proof H as H'. vm_compute in H'. injection H' as <- _. split; reflexivity. }
  destruct Hr as [H200 Hcid].
  destruct (proj2 (C7_get_content_after_post sample_env) working_gens 64%N sample_kvs "hi"
              empty_world r w' "uuid-2" eq_refl eq_refl eq_refl H H200 Hcid)
    as [_ (g & Hg & Hc & _)].
  exists g. split; assumption.
Defined.



End PostFacts.

(** * The per-thread database connection *)

Module ConnFacts.
Import Conn.

Lemma get_cached cf t :
  match get_db_connection cf t with
  | (Some c, t1) => cached t1 = Some c
  | (None, t1) => t1 = t
  end.
Proof.
  unfold get_db_connection. destruct (cached t) eqn:Hc; [exact Hc|].
  destruct cf; reflexivity.
Qed.

Lemma close_removes c t : existsb (Nat.eqb c) (open_conns (close c t)) = false.
Proof.
  unfold close; cbn [open_conns]. induction (open_conns t) as [|a l IH]; [reflexivity|].
  cbn [filter]. destruct (Nat.eqb c a) eqn:Ha; cbn [negb]; [exact IH|].
  cbn [existsb]. rewrite Ha. exact IH.
Qed.

(** C9 (amended). [get_db_connection] hands back any cached connection
    without checking that it is open; [health_check] closes the connection
    it got and leaves it cached, so a database operation right after it, in
    the same request, fails with "Cannot operate on a closed database.". The
    request ends with Flask's teardown hook [close_db_connection()], which
    resets the cache, so the next operation on the thread opens a fresh
    connection and, when [sqlite3.connect] works, succeeds on it. *)
Theorem C9_health_check_connection cf t :
  match cached t with
  | Some c => get_db_connection cf t = (Some c, t)
  | None => True
  end /\
  match get_db_connection cf t with
  | (Some c, t1) =>
      health_check cf t = ("healthy", close c t1) /\
      cached (close c t1) = Some c /\
      db_operation cf (close c t1) = DErr "Cannot operate on a closed database." (close c t1)
  | (None, t1) => health_check cf t = ("unavailable", t1)
  end /\
  let t2 := snd (serve_health cf t) in
  cached t2 = None /\
  db_operation false t2 =
    DOk (next_conn t2) (mkThread (Some (next_conn t2)) (next_conn t2 :: open_conns t2)
                                 (S (next_conn t2))).
Proof.
  split; [unfold get_db_connection; destruct (cached t); reflexivity|].
  split.
  - pose proof (get_cached cf t) as Hg.
    unfold health_check. destruct (get_db_connection cf t) as [[c|] t1]; [|reflexivity].
    split; [reflexivity|]. split; [exact Hg|].
    unfold db_operation, get_db_connection. cbn [cached close]. rewrite Hg.
    rewrite close_removes. reflexivity.
  - unfold serve_health. destruct (health_check cf t) as [st t1]. cbn [snd].
    assert (H0 : cached (close_db_connection t1) = None).
    { unfold close_db_connection. destruct (cached t1) eqn:Hc; [reflexivity | exact Hc]. }
    split; [exact H0|].
    unfold db_operation, get_db_connection. rewrite H0. cbn [open_conns existsb].
    rewrite Nat.eqb_refl. reflexivity.
Qed.

(** C9, counterexample. On a fresh thread, an operation after
    [health_check] in the same request fails on the closed connection, while
    an operation after the whole health request (teardown included) succeeds
    on a fresh connection. *)
Lemma C9_fresh_after_health :
  db_operation false (snd (health_check false fresh_thread)) =
    DErr "Cannot operate on a closed database." (mkThread (Some 0) [] 1) /\
  db_operation false (snd (serve_health false fresh_thread)) =
    DOk 1 (mkThread (Some 1) [1] 2).
Proof. split; reflexivity. Qed.

End ConnFacts.

(* ------------------------------------------------------------------ *)
(** ** The database module: connection cache, cursor protocol, schema *)

Module DbFacts.
Import App Conn Db.

(** A second [get_db_connection()] returns the connection of the first and
    changes nothing; with no cached connection, a failing [sqlite3.connect]
    gives [None] and leaves the thread as it is, and a successful one caches
    and opens a fresh connection. *)
Lemma get_db_connection_cached cf t :
  get_db_connection cf (snd (get_db_connection cf t)) = get_db_connection cf t /\
  match cached t with
  | None =>
      get_db_connection true t = (None, t) /\
      get_db_connection false t =
        (Some (next_conn t),
         mkThread (Some (next_conn t)) (next_conn t :: open_conns t) (S (next_conn t)))
  | Some c => True
  end.
Proof.
  unfold get_db_connection. destruct (cached t) eqn:Hc.
  - cbn [snd]. rewrite Hc. auto.
  - split; [|auto]. destruct cf; cbn; rewrite ?Hc; reflexivity.
Qed.

Lemma existsb_filter_ne c l :
  existsb (Nat.eqb c) (filter (fun c' => negb (Nat.eqb c c')) l) = false.
Proof.
  induction l as [|a l IH]; [reflexivity|]. cbn [filter].
  destruct (Nat.eqb c a) eqn:Ha; cbn [negb]; [exact IH|].
  cbn [existsb]. rewrite Ha. exact IH.
Qed.

(** [close_db_connection()] leaves no cached connection, is idempotent,
    opens nothing, and the connection it had cached is closed afterwards;
    with none cached it does nothing. *)
Lemma close_db_connection_spec t :
  cached (close_db_connection t) = None /\
  close_db_connection (close_db_connection t) = close_db_connection t /\
  next_conn (close_db_connection t) = next_conn t /\
  incl (open_conns (close_db_connection t)) (open_conns t) /\
  match cached t with
  | Some c => existsb (Nat.eqb c) (open_conns (close_db_connection t)) = false
  | None => close_db_connection t = t
  end.
Proof.
  unfold close_db_connection. destruct (cached t) as [c|] eqn:Hc.
  - cbn. split; [reflexivity|]. split; [reflexivity|]. split; [reflexivity|].
    split; [intros x Hx; apply filter_In in Hx; tauto|].
    apply existsb_filter_ne.
  - rewrite Hc. repeat split; try reflexivity. intros x Hx; exact Hx.
Qed.

(** [get_db_cursor()]: without a usable connection the body never runs and
    the schema is unchanged; otherwise the calls are [cursor()], the body,
    then commit and/or rollback, and [cursor.close()] last; commit is called
    exactly when the body succeeds, rollback exactly when the block raises,
    and without a commit or rollback fault the body's outcome passes
    through. *)
Lemma with_db_cursor_protocol {A} cf cfault rfault (body : schema -> outcome A * schema) s t :
  let '(o, calls, s1, t1) := with_db_cursor cf cfault rfault body s t in
  t1 = snd (get_db_connection cf t) /\
  (calls = [] /\ s1 = s /\ (exists m, o = Exc (Other m)) /\
     db_usable cf t = false \/
   db_usable cf t = true /\ s1 = snd (body s) /\
   (exists mid, calls = (CCursor :: CBody :: mid ++ [CCursorClose])%list /\
      ~ In CCursor mid /\ ~ In CCursorClose mid) /\
   (In CCommit calls <-> exists a, fst (body s) = Ok a) /\
   (In CRollback calls <-> exists x, o = Exc x) /\
   (forall a, fst (body s) = Ok a -> cfault = None -> o = Ok a) /\
   (forall x, fst (body s) = Exc x -> rfault = None -> o = Exc x)).
Proof.
  unfold with_db_cursor, db_usable.
  destruct (get_db_connection cf t) as [[c|] t1].
  2: { cbn. split; [reflexivity|]. left. repeat split. eexists. reflexivity. }
  destruct (existsb (Nat.eqb c) (open_conns t1)).
  2: { split; [reflexivity|]. left. repeat split. eexists. reflexivity. }
  destruct (body s) as [[a|x] s1].
  - destruct cfault as [m|].
    + split; [reflexivity|]. right. split; [reflexivity|]. split; [reflexivity|].
      split; [exists [CCommit; CRollback]; cbn; intuition discriminate|].
      split; [cbn; split; [intros _; eexists; reflexivity | tauto]|].
      split; [cbn; split; [intros _; destruct rfault; eexists; reflexivity | tauto]|].
      split; [intros a' _ X; discriminate X | intros x' X; discriminate X].
    + split; [reflexivity|]. right. split; [reflexivity|]. split; [reflexivity|].
      split; [exists [CCommit]; cbn; intuition discriminate|].
      split; [cbn; split; [intros _; eexists; reflexivity | tauto]|].
      split; [cbn; split; [intuition discriminate | intros [x X]; discriminate X]|].
      split; [intros a' X _; injection X as ->; reflexivity | intros x' X; discriminate X].
  - split; [reflexivity|]. right. split; [reflexivity|]. split; [reflexivity|].
    split; [exists [CRollback]; cbn; intuition discriminate|].
    split; [cbn; split; [intuition discriminate | intros [a X]; discriminate X]|].
    split; [cbn; split; [intros _; destruct rfault; eexists; reflexivity | tauto]|].
    split; [intros a' X; discriminate X | intros x' X R; injection X as ->; rewrite R; reflexivity].
Qed.

Lemma dict_lookup_app_some {V} k (s e : list (string * V)) v :
  dict_lookup k s = Some v -> dict_lookup k (s ++ e)%list = Some v.
Proof.
  induction s as [|[k' v'] s IH]; cbn; [discriminate|].
  destruct (String.eqb k k'); [auto | exact IH].
Qed.

Lemma dict_lookup_app_none {V} k (s e : list (string * V)) :
  dict_lookup k s = None -> dict_lookup k (s ++ e)%list = dict_lookup k e.
Proof.
  induction s as [|[k' v'] s IH]; cbn; [reflexivity|].
  destruct (String.eqb k k'); [discriminate | exact IH].
Qed.

(** [execute] only appends, and only names that were absent. *)
Lemma execute_appends st s s1 :
  execute st s = Ok s1 ->
  exists e, s1 = (s ++ e)%list /\ Forall (fun '(n, _) => dict_lookup n s = None) e.
Proof.
  destruct st as [name cols | name table col]; cbn.
  - destruct (dict_lookup name s) as [[c|t c]|] eqn:H; intros R; try discriminate R;
      injection R as <-.
    + exists []. rewrite app_nil_r. auto.
    + eexists. split; [reflexivity|]. repeat constructor. exact H.
  - destruct (dict_lookup table s) as [[cols|]|]; try discriminate.
    destruct (dict_lookup name s) as [[c|t c]|] eqn:H; try discriminate.
    + intros R; injection R as <-. exists []. rewrite app_nil_r. auto.
    + destruct (existsb _ cols); [|discriminate]. intros R; injection R as <-.
      eexists. split; [reflexivity|]. repeat constructor. exact H.
Qed.

Lemma fresh_app (s e e' : schema) :
  Forall (fun '(n, _) => dict_lookup n s = None) e ->
  Forall (fun '(n, _) => dict_lookup n (s ++ e)%list = None) e' ->
  Forall (fun '(n, _) => dict_lookup n s = None) (e ++ e')%list.
Proof.
  intros H1 H2. apply Forall_app. split; [exact H1|].
  eapply Forall_impl; [|exact H2]. intros [n d] Hn.
  destruct (dict_lookup n s) eqn:Hs; [|reflexivity].
  rewrite (dict_lookup_app_some _ _ e _ Hs) in Hn. discriminate.
Qed.

Lemma execute_all_appends sts : forall s,
  exists e, snd (execute_all sts s) = (s ++ e)%list /\
    Forall (fun '(n, _) => dict_lookup n s = None) e.
Proof.
  induction sts as [|st r IH]; intros s; cbn.
  - exists []. rewrite app_nil_r. auto.
  - destruct (execute st s) as [s1|x] eqn:E.
    + destruct (execute_appends st s s1 E) as (e & -> & F).
      destruct (IH (s ++ e)%list) as (e' & R & F').
      exists (e ++ e')%list. rewrite R, app_assoc. split; [reflexivity|].
      exact (fresh_app s e e' F F').
    + exists []. rewrite app_nil_r. auto.
Qed.

(** After a statement succeeded, it changes nothing on any extension of its
    result. *)
Lemma execute_again st s s1 e :
  execute st s = Ok s1 -> execute st (s1 ++ e)%list = Ok (s1 ++ e)%list.
Proof.
  intros H. pose proof (execute_appends st s s1 H) as (e0 & -> & _).
  revert H. destruct st as [name cols | name table col]; cbn.
  - destruct (dict_lookup name s) as [[c|t c]|] eqn:Hn; intros R; try discriminate R;
      injection R as R.
    + rewrite <- R, (dict_lookup_app_some _ _ _ _ Hn). reflexivity.
    + apply app_inv_head in R. subst e0. rewrite <- app_assoc, dict_lookup_app_none by exact Hn. cbn.
      rewrite String.eqb_refl. reflexivity.
  - destruct (dict_lookup table s) as [[cols|]|] eqn:Ht; try discriminate.
    destruct (dict_lookup name s) as [[c|t c]|] eqn:Hn; try discriminate.
    + intros R; injection R as R. rewrite <- R, (dict_lookup_app_some _ _ _ _ Ht), (dict_lookup_app_some _ _ _ _ Hn). reflexivity.
    + destruct (existsb _ cols); [|discriminate]. intros R; injection R as R.
      apply app_inv_head in R. subst e0.
      rewrite <- app_assoc, (dict_lookup_app_some _ _ _ _ Ht).
      rewrite dict_lookup_app_none by exact Hn. cbn. rewrite String.eqb_refl. reflexivity.
Qed.

Lemma execute_all_again sts : forall s sf,
  execute_all sts s = (Ok tt, sf) -> forall e,
  (exists e0, (sf ++ e)%list = ((s ++ e0) ++ e)%list) ->
  execute_all sts (sf ++ e)%list = (Ok tt, (sf ++ e)%list).
Proof.
  induction sts as [|st r IH]; intros s sf H e _; cbn in H |- *.
  - reflexivity.
  - destruct (execute st s) as [s1|x] eqn:E; [|discriminate].
    destruct (execute_all_appends r s1) as (e1 & R1 & _). rewrite H in R1. cbn in R1.
    subst sf. rewrite <- app_assoc.
    rewrite (execute_again st s s1 _ E).
    rewrite app_assoc. apply (IH s1 (s1 ++ e1)%list H e).
    exists e1. reflexivity.
Qed.

(** A successful [init_db()] run again on the database it left creates
    nothing more and succeeds with the same calls. *)
Lemma init_db_idempotent dn cf s t calls s1 t1 :
  init_db dn false cf s t = (Ok tt, calls, s1, t1) ->
  init_db dn false cf s1 t1 = (Ok tt, calls, s1, t1).
Proof.
  unfold init_db. rewrite andb_false_r.
  unfold with_db_cursor.
  destruct (get_db_connection cf t) as [[c|] t2] eqn:Hg; [|discriminate].
  assert (Hc : cached t2 = Some c).
  { unfold get_db_connection in Hg. destruct (cached t) eqn:Hct.
    - injection Hg as -> <-. exact Hct.
    - destruct cf; [discriminate|]. injection Hg as <- <-. reflexivity. }
  destruct (existsb (Nat.eqb c) (open_conns t2)) eqn:Ho; [|discriminate].
  destruct (execute_all init_statements s) as [[[]|x] sf] eqn:Hx; [|discriminate].
  intros R; injection R as <- <- <-.
  unfold get_db_connection at 1. rewrite Hc, Ho.
  pose proof (execute_all_again init_statements s sf Hx []) as A.
  rewrite app_nil_r in A. rewrite A; [reflexivity|].
  destruct (execute_all_appends init_statements s) as (e & R & _).
  rewrite Hx in R. cbn in R. exists e. rewrite !app_nil_r. exact R.
Qed.

Lemma execute_frame st s e :
  Forall (fun n => dict_lookup n s = None) (stmt_names st) ->
  execute st (s ++ e)%list = out_prefix s (execute st e).
Proof.
  destruct st as [name cols | name table col]; cbn; intros F.
  - inversion F as [|? ? Hn _]; subst.
    rewrite (dict_lookup_app_none _ _ _ Hn).
    destruct (dict_lookup name e) as [[|]|]; cbn; try reflexivity. rewrite app_assoc. reflexivity.
  - inversion F as [|? ? Hn F']; subst. inversion F' as [|? ? Ht _]; subst.
    rewrite (dict_lookup_app_none _ _ _ Ht), (dict_lookup_app_none _ _ _ Hn).
    destruct (dict_lookup table e) as [[cols|]|]; cbn; try reflexivity.
    destruct (dict_lookup name e) as [[|]|]; cbn; try reflexivity.
    destruct (existsb _ cols); cbn; [rewrite app_assoc|]; reflexivity.
Qed.

Lemma execute_all_frame sts : forall s e,
  Forall (fun n => dict_lookup n s = None) (flat_map stmt_names sts) ->
  execute_all sts (s ++ e)%list =
  (fst (execute_all sts e), (s ++ snd (execute_all sts e))%list).
Proof.
  induction sts as [|st r IH]; intros s e F; cbn in F |- *; [reflexivity|].
  apply Forall_app in F as [F1 F2].
  rewrite (execute_frame st s e F1).
  destruct (execute st e) as [e1|x]; cbn; [|reflexivity].
  apply IH; exact F2.
Qed.

(** On a database with none of its object names, [init_db()] appends its two
    tables and five indexes and commits. *)
Lemma init_db_creates dn cf s t :
  db_usable cf t = true ->
  Forall (fun n => dict_lookup n s = None) (map fst init_objects) ->
  init_db dn false cf s t =
    (Ok tt, [CCursor; CBody; CCommit; CCursorClose], (s ++ init_objects)%list,
     snd (get_db_connection cf t)).
Proof.
  unfold db_usable, init_db. rewrite andb_false_r. unfold with_db_cursor.
  destruct (get_db_connection cf t) as [[c|] t2]; [|discriminate].
  intros Ho Hf. rewrite Ho.
  rewrite <- (app_nil_r s), execute_all_frame.
  - rewrite app_nil_r. reflexivity.
  - cbn [map fst init_objects] in Hf.
    cbn [flat_map init_statements stmt_names app].
    inversion Hf as [|? ? N0 Hf1]; subst; inversion Hf1 as [|? ? N1 Hf2]; subst.
    inversion Hf2 as [|? ? N2 Hf3]; subst; inversion Hf3 as [|? ? N3 Hf4]; subst.
    inversion Hf4 as [|? ? N4 Hf5]; subst; inversion Hf5 as [|? ? N5 Hf6]; subst.
    inversion Hf6 as [|? ? N6 _]; subst.
    repeat constructor; assumption.
Qed.

(** A [content] table without a [user_id] column, next to a [usage_stats]
    table, makes [init_db()] fail at the first index with sqlite's [no such
    column: user_id]: it rolls back and the schema is unchanged. *)
Lemma init_db_old_content_table dn cf cols ucols s t :
  db_usable cf t = true ->
  dict_lookup "content" s = Some (TableDef cols) ->
  dict_lookup "usage_stats" s = Some (TableDef ucols) ->
  dict_lookup "idx_content_user_id" s = None ->
  existsb (String.eqb "user_id") cols = false ->
  init_db dn false cf s t =
    (Exc (Other "no such column: user_id"),
     [CCursor; CBody; CRollback; CCursorClose], s, snd (get_db_connection cf t)).
Proof.
  unfold db_usable, init_db. rewrite andb_false_r. unfold with_db_cursor.
  destruct (get_db_connection cf t) as [[c|] t2]; [|discriminate].
  intros Ho Hc Hu Hi Hx. rewrite Ho.
  cbn [execute_all init_statements execute]. rewrite Hc, Hu.
  cbn -[String.eqb]. rewrite Hc, Hi, Hx. reflexivity.
Qed.


Lemma init_db_idempotent_witness :
  init_db "" false false init_objects (mkThread (Some 0) [0] 1) =
  (Ok tt, [CCursor; CBody; CCommit; CCursorClose], init_objects, mkThread (Some 0) [0] 1).
Proof. apply (init_db_idempotent "" false [] fresh_thread). reflexivity. Defined.

Lemma init_db_creates_witness :
  init_db "data" false false [("notes", TableDef ["id"])] fresh_thread =
  (Ok tt, [CCursor; CBody; CCommit; CCursorClose],
   ([("notes", TableDef ["id"])] ++ init_objects)%list, snd (get_db_connection false fresh_thread)).
Proof.
  apply init_db_creates; [reflexivity|].
  vm_compute. repeat constructor.
Defined.

Lemma init_db_old_content_table_witness :
  init_db "data" false false
    [("content", TableDef ["id"; "prompt"]); ("usage_stats", TableDef usage_stats_cols)]
    fresh_thread =
  (Exc (Other "no such column: user_id"),
   [CCursor; CBody; CRollback; CCursorClose],
   [("content", TableDef ["id"; "prompt"]); ("usage_stats", TableDef usage_stats_cols)],
   snd (get_db_connection false fresh_thread)).
Proof.
  apply (init_db_old_content_table "data" false ["id"; "prompt"] usage_stats_cols);
    reflexivity.
Defined.


End DbFacts.

(* ------------------------------------------------------------------ *)
(** ** The health and music-file routes *)

Module RouteFacts.
Import App Routes AppRun Facts.

(** The health route of the deployed app always answers 200, reports all
    three generators as unavailable, and reports the database by whether a
    connection is obtained. *)
Lemma health_route_deployed m a cf ts t :
  health_route (init_generators m a) cf ts t =
  (mkResponse 200
     (VDict [("status", VStr "healthy"); ("timestamp", VStr ts);
             ("database", VStr (if is_some (fst (Conn.get_db_connection cf t))
                                then "healthy" else "unavailable"));
             ("generators", VDict [("poem", VBool false); ("music", VBool false);
                                   ("animation", VBool false)])]),
   snd (Conn.health_check cf t)).
Proof.
  rewrite init_generators_none. unfold health_route, Conn.health_check.
  destruct (Conn.get_db_connection cf t) as [[c|] t2]; reflexivity.
Qed.

(** A music-file request of at most [MAX_CONTENT_LENGTH] bytes whose str
    prompt strips to the empty string is answered 400 with [Prompt is
    required], whatever generator there is. *)
Lemma music_file_blank_prompt G af pe stamp n kvs s :
  (n <= MAX_CONTENT_LENGTH)%N ->
  py_get (VDict kvs) "prompt" (VStr "") = Ok (VStr s) ->
  Py.strip s = "" ->
  generate_music_file G af pe stamp (mkRequest true n (Some (VDict kvs))) =
  mkResponse 400 (VDict [("error", VStr "400 Bad Request: Prompt is required")]).
Proof.
  intros Hn Hp Hs. apply N.ltb_ge in Hn.
  unfold generate_music_file, get_json_any. cbn [is_json json_body content_length].
  rewrite Hn, Hp. cbn [py_strip]. rewrite Hs. reflexivity.
Qed.

(** A music-file request of at most [MAX_CONTENT_LENGTH] bytes whose JSON
    body does not decode is answered 400; a JSON request over that size,
    and a request that is not JSON, are answered 500. *)
Lemma music_file_bad_json G af pe stamp :
  (forall n, (n <= MAX_CONTENT_LENGTH)%N ->
     code (generate_music_file G af pe stamp (mkRequest true n None)) = 400%Z) /\
  (forall n b, (MAX_CONTENT_LENGTH < n)%N ->
     generate_music_file G af pe stamp (mkRequest true n b) =
     mkResponse 500 (VDict [("error", VStr "Failed to generate music file")])) /\
  forall n b, generate_music_file G af pe stamp (mkRequest false n b) =
  mkResponse 500 (VDict [("error", VStr "Failed to generate music file")]).
Proof.
  split; [|split].
  - intros n Hn. apply N.ltb_ge in Hn.
    unfold generate_music_file, get_json_any. cbn [is_json json_body content_length].
    rewrite Hn. reflexivity.
  - intros n b Hn. apply N.ltb_lt in Hn.
    unfold generate_music_file, get_json_any. cbn [is_json json_body content_length].
    rewrite Hn. reflexivity.
  - reflexivity.
Qed.

(** Without a music generator the music-file route never answers 200. *)
Lemma music_file_no_generator G af pe stamp req :
  music_gen G = None ->
  code (generate_music_file G af pe stamp req) <> 200%Z.
Proof.
  intros Hm. unfold generate_music_file.
  destruct (get_json_any req) as [d|[]]; try discriminate.
  destruct (py_get d "prompt" (VStr "")) as [p|[]]; try discriminate.
  destruct (py_strip p) as [q|[]]; try discriminate.
  destruct (String.eqb q ""); [discriminate|].
  rewrite Hm. discriminate.
Qed.


Lemma music_file_blank_prompt_witness :
  generate_music_file working_gens (fun _ => Ok "out.wav") (fun _ => true) "20260101_000000"
    (mkRequest true 64 (Some (VDict blank_kvs))) =
  mkResponse 400 (VDict [("error", VStr "400 Bad Request: Prompt is required")]).
Proof.
  apply (music_file_blank_prompt _ _ _ _ 64%N blank_kvs "   ");
    [vm_compute; discriminate | reflexivity | reflexivity].
Defined.

Lemma music_file_no_generator_witness :
  code (generate_music_file (mkGens None None None) (fun _ => Ok "out.wav") (fun _ => true)
          "20260101_000000" (mkRequest true 64 (Some (VDict sample_kvs)))) <> 200%Z.
Proof. apply music_file_no_generator. reflexivity. Defined.

End RouteFacts.

(* ------------------------------------------------------------------ *)
(** ** More of [generate_content] and [get_content] *)

Module PostExtra.
Import App AppRun Facts PostFacts.

Lemma rejected_exc_inert G E req w x w1 r w' :
  validate_request E req (prefix_world E w) = (Exc x, w1) ->
  post_generate G E req w = (Ok r, w') ->
  code r <> 200%Z /\ trace w' = trace w /\ contents w' = contents w.
Proof.
  intros Hv H.
  destruct (validate_result E req (prefix_world E w)) as [Hk _].
  rewrite Hv in Hk. cbn [fst snd] in Hk.
  rewrite (post_generate_rejected G E req w x w1 Hv), serve_handler_run in H.
  destruct Hk as (_ & _ & Hc & _ & Ht).
  destruct (log_fault E (log_calls w1)); [|destruct (is_bad_request x)];
    injection H as <- <-; cbn [logged trace contents code flask_500
      bad_request_response internal_response];
    rewrite Ht, Hc; cbn [prefix_world trace contents];
    (split; [discriminate|split; reflexivity]).
Qed.

Lemma rejected_inert G E req w r w' :
  (forall n kvs s, req = json_req n kvs -> dict_lookup "prompt" kvs = Some (VStr s) ->
     Py.strip s = "" \/ 500 < String.length (Py.strip s)) ->
  post_generate G E req w = (Ok r, w') ->
  code r <> 200%Z /\ trace w' = trace w /\ contents w' = contents w.
Proof.
  intros Hrej H.
  destruct (validate_result E req (prefix_world E w)) as [Hk Hm].
  destruct (validate_request E req (prefix_world E w)) as [o w1] eqn:Hv.
  cbn [fst snd] in Hk, Hm. destruct o as [v|x].
  - destruct Hm as [_ (n & kvs & s & Hq & Hn & Hp & Hne & Hlen)].
    destruct (Hrej n kvs s Hq Hp); [contradiction | lia].
  - rewrite (post_generate_rejected G E req w x w1 Hv), serve_handler_run in H.
    destruct Hk as (_ & _ & Hc & _ & Ht).
    destruct (log_fault E (log_calls w1)); [|destruct (is_bad_request x)];
      injection H as <- <-; cbn [logged trace contents code flask_500
        bad_request_response internal_response];
      rewrite Ht, Hc; cbn [prefix_world trace contents];
      (split; [discriminate|split; reflexivity]).
Qed.

(** A POST that is not JSON is answered 400 and logs one failed usage row
    with user [anonymous], the first uuid as session, an empty prompt and
    the BadRequest message; nothing else changes. *)
Lemma post_not_json G E n b w r w' :
  log_fault E (log_calls w) = None ->
  post_generate G E (mkRequest false n b) w = (Ok r, w') ->
  r = bad_request_response (BadRequest "Content-Type must be application/json")
        (iso_at E (S (S (clock w)))) /\
  usage w' = (usage w ++ [mkUsageRow "/api/generate" (VStr "anonymous")
                 (VStr (uuid_at E (uuids w))) "" false
                 (Some "400 Bad Request: Content-Type must be application/json")
                 (time_at E (S (clock w)) - time_at E (clock w))])%list /\
  contents w' = contents w /\ trace w' = trace w.
Proof.
  intros Hl H.
  rewrite (post_generate_rejected G E (mkRequest false n b) w
             (BadRequest "Content-Type must be application/json") (prefix_world E w) eq_refl),
    serve_handler_run in H.
  cbn [log_calls prefix_world] in H. rewrite Hl in H. injection H as <- <-.
  repeat split.
Qed.

Lemma validate_no_str_prompt E n d w :
  match d with
  | VDict kvs => forall s, dict_get kvs "prompt" (VStr "") <> VStr s
  | _ => True
  end ->
  exists x, validate_request E (mkRequest true n (Some d)) w = (Exc x, w) /\
            is_bad_request x = false.
Proof.
  intros Hd. destruct (N.ltb MAX_CONTENT_LENGTH n) eqn:Hn.
  { exists request_entity_too_large. split; [exact (validate_too_large E n _ w Hn)|].
    reflexivity. }
  destruct d as [| | | | | kvs |];
    try (eexists; split;
         [unfold validate_request, get_json, bind, ret, raise, lift, py_get;
          cbn -[N.ltb MAX_CONTENT_LENGTH]; rewrite Hn; reflexivity
         | reflexivity]).
  apply N.ltb_ge in Hn. eexists.
  split; [exact (validate_nonstr E n kvs _ w Hn eq_refl Hd) | reflexivity].
Qed.

(** A POST whose JSON body is not an object, or whose prompt is not a str,
    is answered 500 (the [.strip()] or [.get] raises) and logs one failed
    usage row with an empty prompt. *)
Lemma post_prompt_not_str G E n d w r w' :
  log_fault E (log_calls w) = None ->
  match d with
  | VDict kvs => forall s, dict_get kvs "prompt" (VStr "") <> VStr s
  | _ => True
  end ->
  post_generate G E (mkRequest true n (Some d)) w = (Ok r, w') ->
  r = internal_response (iso_at E (S (S (clock w)))) /\
  usage w' = (usage w ++ [mkUsageRow "/api/generate" (VStr "anonymous")
                 (VStr (uuid_at E (uuids w))) "" false (Some "Internal server error")
                 (time_at E (S (clock w)) - time_at E (clock w))])%list /\
  contents w' = contents w /\ trace w' = trace w.
Proof.
  intros Hl Hd H.
  destruct (validate_no_str_prompt E n d (prefix_world E w) Hd) as (x & Hv & Hx).
  rewrite (post_generate_rejected G E _ w _ _ Hv), serve_handler_run in H.
  cbn [log_calls prefix_world] in H. rewrite Hl, Hx in H. injection H as <- <-.
  repeat split.
Qed.

Lemma tail_200 E p res errs uid sid start w3 r w' :
  flask_serve (try_ (finish E p res errs uid sid start) (handler E start)) w3
  = (Ok r, w') -> code r = 200%Z ->
  r = mkResponse 200 (VDict (success_body p res errs (iso_at E (clock w3)) sid)) /\
  w' = logged w3 2 [success_row p uid sid (time_at E (S (clock w3)) - start)].
Proof.
  unfold flask_serve, try_; cbv beta. rewrite finish_run.
  destruct (log_fault E (log_calls w3)) as [m|].
  - unfold handler; cbn [is_bad_request]. rewrite internal_error_path_run.
    destruct (log_fault E (log_calls (logged w3 2 [])));
      intros H; cbv beta iota zeta in H; injection H as <- <-; discriminate.
  - cbv zeta. destruct (jsonable (VDict (success_body p res errs (iso_at E (clock w3)) sid))).
    + intros H; cbv beta iota zeta in H; injection H as <- <-; split; reflexivity.
    + unfold handler; cbn [is_bad_request]. rewrite internal_error_path_run.
      match goal with |- context [log_fault E ?n] => destruct (log_fault E n) end;
        intros H; cbv beta iota zeta in H; injection H as <- <-; discriminate.
Qed.

Lemma success_body_session p res errs ts sid :
  dict_lookup "session_id" (success_body p res errs ts sid) = Some sid.
Proof. unfold success_body. destruct errs; reflexivity. Qed.

(** A successful POST answers with the request's [session_id], or else the
    second uuid drawn (the first is discarded), and logs exactly one success
    row with that user, session and stripped prompt. *)
Lemma post_session_ids G E n kvs s w r w' :
  dict_lookup "prompt" kvs = Some (VStr s) ->
  post_generate G E (json_req n kvs) w = (Ok r, w') -> code r = 200%Z ->
  let uid := dict_get kvs "user_id" (VStr "anonymous") in
  let sid := dict_get kvs "session_id" (VStr (uuid_at E (S (uuids w)))) in
  body_field r "session_id" = Some sid /\
  exists ms, usage w' = (usage w ++ [mkUsageRow "/api/generate" uid sid (Py.strip s)
                                      true None ms])%list.
Proof.
  intros Hp H H200 uid sid.
  destruct (post_generate_200 G E n kvs s w r w' Hp H H200) as (Hn & Hne & Hlen).
  run_valid H Hn Hp Hne Hlen.
  destruct (tail_200 _ _ _ _ _ _ _ _ _ _ H H200) as [-> ->].
  split; [unfold body_field; cbn [body]; apply success_body_session|].
  eexists. cbn [usage logged]. rewrite Hu. reflexivity.
Qed.

Lemma jsonable_results_get G opts p :
  jsonable (VDict (producers_results G opts p)) =
  jsonable (results_get (producers_results G opts p) "poem") &&
  jsonable (results_get (producers_results G opts p) "music") &&
  jsonable (results_get (producers_results G opts p) "animation").
Proof.
  unfold producers_results.
  destruct (block_result (poem_gen G) _ _ opts p) as [a|];
  destruct (block_result (music_gen G) _ _ opts p) as [b|];
  destruct (block_result (animation_gen G) _ _ opts p) as [c|];
  cbn; rewrite ?andb_true_r; try reflexivity;
  rewrite ?andb_assoc; reflexivity.
Qed.

(** When a generator result cannot be serialised by [json.dumps], the POST
    stores no content, logs a success row then a failure row, and answers
    500. *)
Lemma post_unserialisable G E n kvs s w r w' :
  (n <= MAX_CONTENT_LENGTH)%N ->
  dict_lookup "prompt" kvs = Some (VStr s) ->
  Py.strip s <> "" -> String.length (Py.strip s) <= 500 ->
  log_fault E (log_calls w) = None -> log_fault E (S (log_calls w)) = None ->
  jsonable (VDict (producers_results G (request_options kvs) (Py.strip s))) = false ->
  post_generate G E (json_req n kvs) w = (Ok r, w') ->
  let p := Py.strip s in
  let uid := dict_get kvs "user_id" (VStr "anonymous") in
  let sid := dict_get kvs "session_id" (VStr (uuid_at E (S (uuids w)))) in
  (exists ts, r = internal_response ts) /\ contents w' = contents w /\
  exists ms1 ms2,
    usage w' = (usage w ++ [mkUsageRow "/api/generate" uid sid p true None ms1;
                           mkUsageRow "/api/generate" uid sid p false
                             (Some "Internal server error") ms2])%list.
Proof.
  intros Hn Hp Hne Hlen Hl1 Hl2 Hj H p uid sid.

  run_valid H Hn Hp Hne Hlen.
  destruct (save_step_cases _ _ _ _ _ _ _ _ Hs)
    as [[-> Hc3] | (cid0 & _ & _ & J1 & J2 & J3 & _)].
  2: { rewrite jsonable_results_get, J1, J2, J3 in Hj. discriminate Hj. }
  unfold flask_serve, try_ in H; cbv beta in H. rewrite finish_run in H.
  rewrite Hl in H. cbn [log_calls add_trace validated_world prefix_world] in H.
  rewrite Hl1 in H. cbv zeta in H.
  rewrite jsonable_success_eq, Hj in H. cbn [andb] in H.
  unfold handler in H; cbn [is_bad_request] in H. rewrite internal_error_path_run in H.
  cbn [logged log_calls] in H. rewrite Hl in H.
  cbn [log_calls add_trace validated_world prefix_world] in H. rewrite Hl2 in H.
  injection H as <- <-.
  split; [eexists; reflexivity|].
  split; [cbn [contents logged]; rewrite Hc3; reflexivity|].
  do 2 eexists. unfold failure_row, success_row, logged.
  cbn [usage l_user_id l_session_id l_prompt]. rewrite Hu, Hui, Hsi, Hpr.
  cbn [usage l_user_id l_session_id l_prompt add_trace validated_world prefix_world].
  rewrite <- app_assoc. reflexivity.
Qed.

Lemma post_nothing_produced G E n kvs s w r w' :
  dict_lookup "prompt" kvs = Some (VStr s) ->
  producers_events G (request_options kvs) = [] ->
  producers_results G (request_options kvs) (Py.strip s) = [] ->
  post_generate G E (json_req n kvs) w = (Ok r, w') ->
  let errs := producers_errors G (request_options kvs) (Py.strip s) in
  trace w' = trace w /\
  (code r = 200%Z ->
   body_field r "status" =
     Some (VStr (match errs with [] => "success" | _ => "partial_success" end)) /\
   body_field r "errors" = match errs with [] => None | _ => Some (errors_val errs) end /\
   result_field r "poem" = None /\ result_field r "music" = None /\
   result_field r "animation" = None).
Proof.
  intros Hp Hev Hres0 H errs. subst errs.
  destruct (N.ltb MAX_CONTENT_LENGTH n) eqn:HN.
  { destruct (rejected_exc_inert G E _ w _ _ r w' (validate_too_large E n _ _ HN) H)
      as (H200 & Ht & _).
    split; [exact Ht | intros X; contradiction]. }
  apply N.ltb_ge in HN.
  destruct (String.eqb (Py.strip s) "" || Nat.ltb 500 (String.length (Py.strip s))) eqn:Hb.
  - destruct (rejected_inert G E (json_req n kvs) w r w') as (H200 & Ht & _); [|exact H|].
    + intros n' kvs' s' Hq Hp'. injection Hq as <- <-. rewrite Hp in Hp'. injection Hp' as <-.
      apply orb_true_iff in Hb as [B|B]; [left; apply String.eqb_eq; exact B |
        right; apply Nat.ltb_lt; exact B].
    + split; [exact Ht | intros X; contradiction].
  - apply orb_false_iff in Hb as [B1 B2].
    apply String.eqb_neq in B1. apply Nat.ltb_ge in B2.
    run_valid H HN Hp B1 B2.
    rewrite Hres0 in Hres.

    split.
    + apply tail_shape in H as [_ ->]. rewrite Ht. cbn [trace add_trace validated_world prefix_world].
      rewrite Hev, app_nil_r. reflexivity.
    + intros H200. destruct (tail_200 _ _ _ _ _ _ _ _ _ _ H H200) as [-> _].
      destruct (success_body_fields (Py.strip s) res
                  (producers_errors G (request_options kvs) (Py.strip s)) (iso_at E (clock w3))
                  (dict_get kvs "session_id" (VStr (uuid_at E (S (uuids w))))))
        as (F1 & F2 & F3 & _).
      unfold result_field, body_field; cbn [body].
      rewrite F1, F2, F3.
      split; [reflexivity|]. split; [reflexivity|].
      destruct Hres as [-> | [cid ->]]; repeat split.
Qed.

Lemma request_options_not_dict_events G kvs :
  (forall d, request_options kvs <> VDict d) ->
  producers_events G (request_options kvs) = [] /\
  forall p, producers_results G (request_options kvs) p = [] /\
            producers_errors G (request_options kvs) p <> [].
Proof.
  intros Hd.
  assert (Hg : forall k dflt, py_get (request_options kvs) k (VStr dflt) =
                              Exc (attribute_error (request_options kvs) "get")).
  { intros k dflt. destruct (request_options kvs); try reflexivity. exfalso. eapply Hd. reflexivity. }
  split; [|intros p; split].
  - unfold producers_events, block_invokes. rewrite !Hg.
    destruct (poem_gen G), (music_gen G), (animation_gen G); reflexivity.
  - unfold producers_results, block_result. rewrite !Hg.
    destruct (poem_gen G), (music_gen G), (animation_gen G); reflexivity.
  - unfold producers_errors, block_error. rewrite !Hg.
    destruct (poem_gen G), (music_gen G), (animation_gen G); cbn; discriminate.
Qed.

(** When [options] is present but not a dict, every producer block raises
    before generating: no generator runs and a 200 answer is a partial
    success with no poem, music or animation. *)
Lemma post_options_not_dict G E n kvs s w r w' :
  dict_lookup "prompt" kvs = Some (VStr s) ->
  (forall d, request_options kvs <> VDict d) ->
  post_generate G E (json_req n kvs) w = (Ok r, w') ->
  trace w' = trace w /\
  (code r = 200%Z ->
   body_field r "status" = Some (VStr "partial_success") /\
   result_field r "poem" = None /\ result_field r "music" = None /\
   result_field r "animation" = None).
Proof.
  intros Hp Hd H.
  destruct (request_options_not_dict_events G kvs Hd) as [Hev Hpr].
  destruct (Hpr (Py.strip s)) as [Hres Herr].
  destruct (post_nothing_produced G E n kvs s w r w' Hp Hev Hres H) as [Ht Hc].
  split; [exact Ht|]. intros H200. destruct (Hc H200) as (F1 & _ & F3).
  split; [|exact F3]. rewrite F1.
  destruct (producers_errors G (request_options kvs) (Py.strip s)); [contradiction|reflexivity].
Qed.

(** With the generators of the deployed app (all [None]), a POST runs no
    generator; a 200 answer is a partial success with the three [not
    available] errors and no results. *)
Lemma post_deployed m a E n kvs s w r w' :
  dict_lookup "prompt" kvs = Some (VStr s) ->
  post_generate (init_generators m a) E (json_req n kvs) w = (Ok r, w') ->
  trace w' = trace w /\
  (code r = 200%Z ->
   body_field r "status" = Some (VStr "partial_success") /\
   body_field r "errors" =
     Some (VDict [("poem", VStr "Poem generator not available");
                  ("music", VStr "Music generator not available");
                  ("animation", VStr "Animation generator not available")]) /\
   result_field r "poem" = None /\ result_field r "music" = None /\
   result_field r "animation" = None).
Proof.
  rewrite init_generators_none. intros Hp H.
  exact (post_nothing_produced (mkGens None None None) E n kvs s w r w' Hp eq_refl eq_refl H).
Qed.


(** A POST stores at most one content row, with a fresh [content_id], and
    keeps content ids distinct. *)
Lemma post_content_ids G E req w r w' :
  post_generate G E req w = (Ok r, w') ->
  exists cs, contents w' = (contents w ++ cs)%list /\ length cs <= 1 /\
    Forall (fun c => existsb (fun r0 => String.eqb (c_content_id r0) (c_content_id c))
                       (contents w) = false) cs /\
    (NoDup (map c_content_id (contents w)) -> NoDup (map c_content_id (contents w'))).
Proof.
  intros H.
  assert (Hm : exists cs, contents w' = (contents w ++ cs)%list /\ length cs <= 1 /\
    Forall (fun c => existsb (fun r0 => String.eqb (c_content_id r0) (c_content_id c))
                       (contents w) = false) cs).
  2: { destruct Hm as (cs & Hc & Hl & Hf). exists cs. split; [exact Hc|].
       split; [exact Hl|]. split; [exact Hf|]. intros Hn. rewrite Hc, map_app.
       destruct cs as [|c [|c' cs]]; [rewrite app_nil_r; exact Hn| |cbn in Hl; lia].
       inversion Hf as [|? ? Hx _]; subst. clear Hf.
       cbn [map]. apply NoDup_app; [exact Hn | constructor; [intros []|constructor] |].
       intros x Hx1 Hx2. destruct Hx2 as [<- | []].
       apply in_map_iff in Hx1 as (r0 & Heq & Hin).
       assert (existsb (fun r1 => String.eqb (c_content_id r1) (c_content_id c)) (contents w) = true)
         by (apply existsb_exists; exists r0; split; [exact Hin | apply String.eqb_eq; exact Heq]).
       congruence. }
  destruct (validate_result E req (prefix_world E w)) as [Hk Hm].
  destruct (validate_request E req (prefix_world E w)) as [o w1] eqn:Hv.
  cbn [fst snd] in Hk, Hm. destruct o as [v|x].
  - destruct Hm as [_ (n & kvs & s & -> & Hn & Hp & Hne & Hlen)].
    run_valid H Hn Hp Hne Hlen.
    pose proof (tail_contents _ _ _ _ _ _ _ _ _ _ H) as Hct. rewrite Hct.
    destruct (save_step_cases _ _ _ _ _ _ _ _ Hs)
      as [[_ Hc3] | (cid0 & _ & Hx & _ & _ & _ & Hc3)]; rewrite Hc3;
      cbn [contents add_trace validated_world prefix_world].
    + exists []. rewrite app_nil_r. split; [reflexivity|]. split; [cbn; lia | constructor].
    + eexists. split; [reflexivity|]. split; [cbn; lia|]. constructor; [exact Hx | constructor].
  - rewrite (post_generate_rejected G E req w x w1 Hv), serve_handler_run in H.
    destruct Hk as (_ & _ & Hc & _ & _).
    exists []. rewrite app_nil_r. split; [|split; [cbn; lia | constructor]].
    destruct (log_fault E (log_calls w1)); injection H as _ <-; cbn [logged contents];
      rewrite Hc; reflexivity.
Qed.

(** GET [/api/content/<id>] never changes the stored content or usage, and a
    read error answers 500. *)
Lemma get_content_store E cid w :
  contents (snd (get_content_route E cid w)) = contents w /\
  usage (snd (get_content_route E cid w)) = usage w /\
  (read_fault E <> None ->
   get_content_route E cid w =
     (Ok (mkResponse 500 (VDict [("error", VStr "Failed to retrieve content")])), w)).
Proof.
  unfold get_content_route, get_content, flask_serve, try_, bind, content_model_new,
    ret, get_content_row, lift, utcnow_iso, jsonify.
  destruct (read_fault E) as [m|].
  - split; [reflexivity|]. split; [reflexivity|]. intros _. reflexivity.
  - cbv beta iota. split; [|split; [|intros X; contradiction]];
      destruct (option_map _ _) as [c|]; cbn [fst snd];
      try (destruct (jsonable _); reflexivity).
Qed.

Lemma lstrip_idem s : Py.lstrip (Py.lstrip s) = Py.lstrip s.
Proof.
  induction s as [|c r IH]; [reflexivity|]. cbn.
  destruct (Py.is_space c) eqn:Hc; [exact IH|]. cbn. rewrite Hc. reflexivity.
Qed.

Lemma lstrip_split s : exists pre,
  list_ascii_of_string s = (pre ++ list_ascii_of_string (Py.lstrip s))%list /\
  Forall (fun c => Py.is_space c = true) pre.
Proof.
  induction s as [|c r IH]; [exists []; split; [reflexivity|constructor]|].
  cbn. destruct (Py.is_space c) eqn:Hc.
  - destruct IH as (pre & H1 & H2). exists (c :: pre). cbn. rewrite H1.
    split; [reflexivity|constructor; assumption].
  - exists []. split; [reflexivity|constructor].
Qed.

Lemma lstrip_first s :
  match list_ascii_of_string (Py.lstrip s) with [] => True | c :: _ => Py.is_space c = false end.
Proof.
  induction s as [|c r IH]; [exact I|]. cbn.
  destruct (Py.is_space c) eqn:Hc; [exact IH|]. exact Hc.
Qed.

Lemma lstrip_nospace s :
  match list_ascii_of_string s with [] => True | c :: _ => Py.is_space c = false end ->
  Py.lstrip s = s.
Proof. destruct s as [|c r]; cbn; [reflexivity|]. intros Hc. rewrite Hc. reflexivity. Qed.

Lemma L_rev x : list_ascii_of_string (Py.rev_string x) = rev (list_ascii_of_string x).
Proof. unfold Py.rev_string. apply list_ascii_of_string_of_list_ascii. Qed.

Lemma rev_rev_string x : Py.rev_string (Py.rev_string x) = x.
Proof.
  unfold Py.rev_string at 1. rewrite L_rev, rev_involutive.
  apply string_of_list_ascii_of_string.
Qed.

Lemma strip_idem s : Py.strip (Py.strip s) = Py.strip s.
Proof.
  unfold Py.strip at 2.
  set (t := Py.lstrip s). set (u := Py.lstrip (Py.rev_string t)).
  assert (A : Py.lstrip (Py.rev_string u) = Py.rev_string u).
  { apply lstrip_nospace. rewrite L_rev.
    destruct (lstrip_split (Py.rev_string t)) as (pre & H1 & _).
    fold u in H1. rewrite L_rev in H1.
    apply (f_equal (@rev ascii)) in H1. rewrite rev_involutive, rev_app_distr in H1.
    pose proof (lstrip_first s) as F. fold t in F. rewrite H1 in F.
    destruct (rev (list_ascii_of_string u)); [exact I|exact F]. }
  unfold Py.strip. rewrite A, rev_rev_string. subst u. rewrite lstrip_idem. reflexivity.
Qed.

Lemma bind_run {A B} (m : M A) (f : A -> M B) w :
  bind m f w = match m w with (Ok a, w') => f a w' | (Exc x, w') => (Exc x, w') end.
Proof. reflexivity. Qed.

Lemma try_run {A} (m : M A) h w :
  try_ m h w = match m w with (Exc x, w') => h x w' | r => r end.
Proof. reflexivity. Qed.

Lemma generate_try_prestripped G E n n' kvs s start w0 :
  (n <= MAX_CONTENT_LENGTH)%N -> (n' <= MAX_CONTENT_LENGTH)%N ->
  dict_get kvs "prompt" (VStr "") = VStr s ->
  generate_try G E (json_req n' (dict_set "prompt" (VStr (Py.strip s)) kvs)) start w0 =
  generate_try G E (json_req n kvs) start w0.
Proof.
  intros Hn Hn' Hp. set (kvs' := dict_set "prompt" (VStr (Py.strip s)) kvs).
  assert (Hp' : dict_get kvs' "prompt" (VStr "") = VStr (Py.strip s))
    by (unfold dict_get, kvs'; rewrite dict_lookup_set_same; reflexivity).
  assert (Hg : forall k d, k <> "prompt" -> dict_get kvs' k d = dict_get kvs k d)
    by (intros k d Hk; unfold dict_get, kvs'; rewrite dict_lookup_set_other by exact Hk;
        reflexivity).
  unfold generate_try.
  rewrite (bind_run (validate_request E (json_req n' kvs'))),
    (bind_run (validate_request E (json_req n kvs))).
  rewrite (validate_str E n' kvs' _ w0 Hn' Hp'), (validate_str E n kvs s w0 Hn Hp), strip_idem.
  unfold validated_world. rewrite !strip_idem, !Hg by discriminate.
  destruct (String.eqb (Py.strip s) ""); [reflexivity|].
  destruct (Nat.ltb 500 (String.length (Py.strip s))); [reflexivity|].
  unfold generate_body.
  assert (Ho : py_get (VDict kvs') "options" (VDict []) = py_get (VDict kvs) "options" (VDict [])).
  { pose proof (Hg "options" (VDict []) ltac:(discriminate)) as X. unfold dict_get in X.
    unfold py_get. destruct (dict_lookup "options" kvs'), (dict_lookup "options" kvs);
      congruence. }
  rewrite (bind_run (lift (py_get (VDict kvs') "options" (VDict [])))),
    (bind_run (lift (py_get (VDict kvs) "options" (VDict [])))).
  unfold lift at 1 2. rewrite Ho. reflexivity.
Qed.

(** A POST whose str prompt is replaced by its stripped form behaves exactly
    like the original request, when both bodies are within
    [MAX_CONTENT_LENGTH]. *)
Lemma post_prestripped G E n n' kvs s w :
  (n <= MAX_CONTENT_LENGTH)%N -> (n' <= MAX_CONTENT_LENGTH)%N ->
  dict_get kvs "prompt" (VStr "") = VStr s ->
  post_generate G E (json_req n' (dict_set "prompt" (VStr (Py.strip s)) kvs)) w =
  post_generate G E (json_req n kvs) w.
Proof.
  intros Hn Hn' Hp. unfold post_generate, flask_serve. rewrite !try_run.
  rewrite !generate_content_prefix, !try_run.
  rewrite (generate_try_prestripped G E n n' kvs s _ _ Hn Hn' Hp). reflexivity.
Qed.




Lemma post_not_json_witness :
  match post_generate working_gens sample_env (mkRequest false 64 (Some (VDict sample_kvs)))
          empty_world with
  | (Ok r, w') =>
      r = bad_request_response (BadRequest "Content-Type must be application/json")
            (iso_at sample_env 2) /\
      usage w' = [mkUsageRow "/api/generate" (VStr "anonymous") (VStr "uuid-0") "" false
                   (Some "400 Bad Request: Content-Type must be application/json") 10%Z] /\
      contents w' = [] /\ trace w' = []
  | (Exc _, _) => False
  end.
Proof.
  destruct (post_generate working_gens sample_env (mkRequest false 64 (Some (VDict sample_kvs)))
              empty_world) as [[r|x] w'] eqn:H; [|vm_compute in H; discriminate H].
  exact (post_not_json working_gens sample_env 64%N (Some (VDict sample_kvs)) empty_world r w'
           eq_refl H).
Defined.

Lemma post_prompt_not_str_witness :
  match post_generate working_gens sample_env (mkRequest true 64 (Some (VDict [("prompt", VInt 3)])))
          empty_world with
  | (Ok r, w') =>
      r = internal_response (iso_at sample_env 2) /\
      usage w' = [mkUsageRow "/api/generate" (VStr "anonymous") (VStr "uuid-0") "" false
                   (Some "Internal server error") 10%Z] /\
      contents w' = [] /\ trace w' = []
  | (Exc _, _) => False
  end.
Proof.
  destruct (post_generate working_gens sample_env
              (mkRequest true 64 (Some (VDict [("prompt", VInt 3)]))) empty_world)
    as [[r|x] w'] eqn:H; [|vm_compute in H; discriminate H].
  apply (post_prompt_not_str working_gens sample_env 64%N (VDict [("prompt", VInt 3)]) empty_world
           r w' eq_refl); [|exact H].
  intros s. discriminate.
Defined.

Lemma post_session_ids_witness :
  match post_generate working_gens sample_env (json_req 64 sample_kvs) empty_world with
  | (Ok r, w') =>
      body_field r "session_id" = Some (VStr "uuid-1") /\
      exists ms, usage w' = [mkUsageRow "/api/generate" (VStr "anonymous") (VStr "uuid-1")
                              "hi" true None ms]
  | (Exc _, _) => False
  end.
Proof.
  destruct (post_generate working_gens sample_env (json_req 64 sample_kvs) empty_world)
    as [[r|x] w'] eqn:H; [|vm_compute in H; discriminate H].
  pose proof H as H'. vm_compute in H'. injection H' as Hr _.
  apply (post_session_ids working_gens sample_env 64%N sample_kvs "hi" empty_world r w' eq_refl H).
  rewrite <- Hr. reflexivity.
Defined.

Lemma post_unserialisable_witness :
  match post_generate path_gens sample_env (json_req 64 sample_kvs) empty_world with
  | (Ok r, w') =>
      (exists ts, r = internal_response ts) /\ contents w' = [] /\
      exists ms1 ms2,
        usage w' = [mkUsageRow "/api/generate" (VStr "anonymous") (VStr "uuid-1") "hi"
                      true None ms1;
                    mkUsageRow "/api/generate" (VStr "anonymous") (VStr "uuid-1") "hi"
                      false (Some "Internal server error") ms2]
  | (Exc _, _) => False
  end.
Proof.
  destruct (post_generate path_gens sample_env (json_req 64 sample_kvs) empty_world)
    as [[r|x] w'] eqn:H; [|vm_compute in H; discriminate H].
  apply (post_unserialisable path_gens sample_env 64%N sample_kvs "hi" empty_world r w');
    [vm_compute; discriminate | reflexivity | discriminate | vm_compute; lia | reflexivity
    | reflexivity | vm_compute; reflexivity | exact H].
Defined.

Lemma post_options_not_dict_witness :
  match post_generate working_gens sample_env
          (json_req 64 [("prompt", VStr "hi"); ("options", VStr "fast")]) empty_world with
  | (Ok r, w') =>
      trace w' = [] /\
      (code r = 200%Z ->
       body_field r "status" = Some (VStr "partial_success") /\
       result_field r "poem" = None /\ result_field r "music" = None /\
       result_field r "animation" = None)
  | (Exc _, _) => False
  end.
Proof.
  destruct (post_generate working_gens sample_env
              (json_req 64 [("prompt", VStr "hi"); ("options", VStr "fast")]) empty_world)
    as [[r|x] w'] eqn:H; [|vm_compute in H; discriminate H].
  apply (post_options_not_dict working_gens sample_env 64%N
           [("prompt", VStr "hi"); ("options", VStr "fast")] "hi" empty_world r w' eq_refl);
    [|exact H].
  intros d. discriminate.
Defined.

Lemma post_deployed_witness :
  match post_generate (init_generators (Ok music_stub) animation_stub) sample_env
          (json_req 64 sample_kvs) empty_world with
  | (Ok r, w') =>
      trace w' = [] /\
      (code r = 200%Z ->
       body_field r "status" = Some (VStr "partial_success") /\
       body_field r "errors" =
         Some (VDict [("poem", VStr "Poem generator not available");
                      ("music", VStr "Music generator not available");
                      ("animation", VStr "Animation generator not available")]) /\
       result_field r "poem" = None /\ result_field r "music" = None /\
       result_field r "animation" = None)
  | (Exc _, _) => False
  end.
Proof.
  destruct (post_generate (init_generators (Ok music_stub) animation_stub) sample_env
              (json_req 64 sample_kvs) empty_world) as [[r|x] w'] eqn:H;
    [|vm_compute in H; discriminate H].
  exact (post_deployed _ _ sample_env 64%N sample_kvs "hi" empty_world r w' eq_refl H).
Defined.


Lemma post_content_ids_witness :
  match post_generate working_gens sample_env (json_req 64 sample_kvs) empty_world with
  | (Ok r, w') =>
      exists cs, contents w' = cs /\ length cs <= 1 /\
        (NoDup (map c_content_id []) -> NoDup (map c_content_id (contents w')))
  | (Exc _, _) => False
  end.
Proof.
  destruct (post_generate working_gens sample_env (json_req 64 sample_kvs) empty_world)
    as [[r|x] w'] eqn:H; [|vm_compute in H; discriminate H].
  destruct (post_content_ids working_gens sample_env (json_req 64 sample_kvs) empty_world r w' H)
    as (cs & Hc & Hl & _ & Hn).
  exists cs. split; [exact Hc|]. split; [exact Hl | exact Hn].
Defined.

Lemma post_prestripped_witness :
  post_generate working_gens sample_env
    (json_req 62 (dict_set "prompt" (VStr (Py.strip " hi ")) spaced_kvs)) empty_world =
  post_generate working_gens sample_env (json_req 64 spaced_kvs) empty_world.
Proof.
  apply post_prestripped; [vm_compute; discriminate | vm_compute; discriminate | reflexivity].
Defined.


End PostExtra.

(* ------------------------------------------------------------------ *)
(** ** The effects of [AnimationGenerator.generate] *)

Module AnimExtra.
Import App Animation Facts AnimFacts.









End AnimExtra.
